(** * Finora client: category summaries, manual overrides and search

    A shallow embedding of the expense-category views and of the search
    handler of the React client, with the properties of the summary
    aggregation, of the manual category override and of the search handler.

    Modelling conventions.
    - A JavaScript [number] that comes from the server (an amount, a
      confidence) is a finite number: it is taken for the rational [Q] it
      denotes, with the exact [+], [-], [*] and [Math.abs].  Division is
      the one operation of the client that can leave the finite numbers
      ([x / 0] is [NaN] or an infinity): [js_div] is partial.  The code
      computes on binary64 numbers and its sums round: the statements below
      use the order of the numbers, bounds, and sums taken in the order in
      which the code adds; an identity between sums taken in different
      orders is stated for amounts on which the additions are exact
      ([integer_amounts]), and [Binary64] runs the summary on binary64
      numbers where the rounding shows.
    - A [Map] keeps its keys in insertion order: it is an association list,
      [map_set] overwrites in place or appends.
    - An object literal read with [obj[key]] is the list of its own
      properties followed by the members of [Object.prototype].
    - React state is a record; a handler is a function of the render whose
      closure it belongs to, of the outcome of its backend call and of the
      state its updates are applied to. *)

From Stdlib Require Import List String Ascii Bool Arith ZArith NArith QArith Qabs.
From Stdlib Require Import Lia Permutation Sorted.
From Stdlib Require Import Floats.
Import ListNotations.

Set Implicit Arguments.

Local Open Scope string_scope.
Local Open Scope list_scope.

(** ** JavaScript primitives *)

Module JS.

Definition number := Q.

(** [a / b]; [None] when the quotient is not a finite number. *)
Definition js_div (a b : number) : option number :=
  if Qeq_bool b 0 then None else Some (a / b)%Q.

(** [x > 0] *)
Definition gt0 (x : number) : bool := negb (Qle_bool x 0).

(** Values met when a property of an object literal of strings is read. *)
Inductive value : Type :=
| Undefined
| Str (s : string)
| Inherited (key : string).

Definition truthy (v : value) : bool :=
  match v with
  | Undefined => false
  | Str s => negb (String.eqb s "")
  | Inherited _ => true
  end.

(** [a || b] *)
Definition or (a b : value) : value := if truthy a then a else b.

Definition object_prototype_keys : list string :=
  [ "constructor"; "hasOwnProperty"; "isPrototypeOf"; "propertyIsEnumerable";
    "toLocaleString"; "toString"; "valueOf"; "__proto__";
    "__defineGetter__"; "__defineSetter__"; "__lookupGetter__";
    "__lookupSetter__" ].

Fixpoint own (obj : list (string * string)) (key : string) : option string :=
  match obj with
  | [] => None
  | (k, v) :: rest => if String.eqb k key then Some v else own rest key
  end.

(** [obj[key]] *)
Definition get (obj : list (string * string)) (key : string) : value :=
  match own obj key with
  | Some v => Str v
  | None =>
      if existsb (String.eqb key) object_prototype_keys
      then Inherited key else Undefined
  end.

(** *** [Map<string, V>] in insertion order *)

Section MapOps.
Variable V : Type.

Definition Map := list (string * V).

Fixpoint map_get (key : string) (m : Map) : option V :=
  match m with
  | [] => None
  | (k, v) :: rest => if String.eqb k key then Some v else map_get key rest
  end.

Fixpoint map_set (key : string) (v : V) (m : Map) : Map :=
  match m with
  | [] => [(key, v)]
  | (k, w) :: rest =>
      if String.eqb k key then (k, v) :: rest
      else (k, w) :: map_set key v rest
  end.
End MapOps.

(** *** [Array.prototype.sort(compareFn)]

    The sort is stable: an element moves in front of another one only
    when [compareFn] of the two is positive.  Insertion from the right
    realises it. *)

Section Sort.
Variable A : Type.
Variable compareFn : A -> A -> number.

Fixpoint insert (x : A) (l : list A) : list A :=
  match l with
  | [] => [x]
  | y :: rest =>
      if Qle_bool (compareFn x y) 0 then x :: y :: rest
      else y :: insert x rest
  end.

Fixpoint sort (l : list A) : list A :=
  match l with
  | [] => []
  | x :: rest => insert x (sort rest)
  end.
End Sort.

(** *** Strings as UTF-16 code units, for [String.prototype.trim] *)

Definition code_units := list N.

(** WhiteSpace and LineTerminator code points of ECMAScript. *)
Definition is_white_space (c : N) : bool :=
  (N.eqb c 9 || N.eqb c 10 || N.eqb c 11 || N.eqb c 12 || N.eqb c 13
   || N.eqb c 32 || N.eqb c 160 || N.eqb c 5760
   || (N.leb 8192 c && N.leb c 8202)
   || N.eqb c 8232 || N.eqb c 8233 || N.eqb c 8239 || N.eqb c 8287
   || N.eqb c 12288 || N.eqb c 65279)%bool.

Fixpoint trim_start (s : code_units) : code_units :=
  match s with
  | [] => []
  | c :: rest => if is_white_space c then trim_start rest else s
  end.

Definition trim (s : code_units) : code_units :=
  rev (trim_start (rev (trim_start s))).

(** Truthiness of a string: the empty string is the only falsy one. *)
Definition truthy_string (s : code_units) : bool :=
  match s with [] => false | _ :: _ => true end.

(** The code units of a literal written in ASCII. *)
Definition literal (s : string) : code_units :=
  map N_of_ascii (list_ascii_of_string s).

End JS.

(** ** Transactions (the [Transaction] interface of both category views) *)

Inductive TxType : Type := debit | credit.

Record Transaction : Type := {
  id : string;
  date : string;
  description : string;
  amount : JS.number;
  type : TxType;
  category : string;
  confidence : JS.number
}.

Definition is_debit (t : Transaction) : bool :=
  match type t with debit => true | credit => false end.

(** The two lookup tables, identical in both views. *)

Definition CATEGORY_COLORS : list (string * string) :=
  [ ("Food & Dining", "bg-red-100 text-red-800 border-red-200");
    ("Transportation", "bg-blue-100 text-blue-800 border-blue-200");
    ("Shopping", "bg-purple-100 text-purple-800 border-purple-200");
    ("Bills & Utilities", "bg-yellow-100 text-yellow-800 border-yellow-200");
    ("Healthcare", "bg-green-100 text-green-800 border-green-200");
    ("Entertainment", "bg-pink-100 text-pink-800 border-pink-200");
    ("Travel", "bg-indigo-100 text-indigo-800 border-indigo-200");
    ("Income", "bg-emerald-100 text-emerald-800 border-emerald-200");
    ("Transfers", "bg-gray-100 text-gray-800 border-gray-200");
    ("Miscellaneous", "bg-orange-100 text-orange-800 border-orange-200") ].

Definition CATEGORY_ICONS : list (string * string) :=
  [ ("Food & Dining", "🍽️");
    ("Transportation", "🚗");
    ("Shopping", "🛍️");
    ("Bills & Utilities", "💡");
    ("Healthcare", "🏥");
    ("Entertainment", "🎬");
    ("Travel", "✈️");
    ("Income", "💰");
    ("Transfers", "🔄");
    ("Miscellaneous", "📋") ].

(** The fixed category enum: the keys of the tables. *)
Definition category_enum : list string := map fst CATEGORY_COLORS.

(** The value the category map holds per key: [{ total, count }]. *)
Record Bucket : Type := { bucket_total : JS.number; bucket_count : nat }.

(** Outcome of awaiting a backend call. *)
Inductive Awaited (A : Type) : Type :=
| Resolved (a : A)
| Rejected.
Arguments Resolved {A} a.
Arguments Rejected {A}.

(** ** Shapes of the backend responses (client/src/api) *)

Module Api.

(** The response of [analyzeExpenses]; [transactions] may be missing. *)
Record AnalysisData : Type := { transactions : option (list Transaction) }.

(** [DocumentInfo], the response of the two upload calls. *)
Record DocumentInfo (Metadata : Type) : Type := {
  filename : string;
  chunks_count : Z;
  metadata : Metadata;
  document_id : string;
  created_at : string
}.

End Api.

(** What a handler shows to the user or writes to the console. *)
Inductive Notice : Type :=
| toast_loading (text : string)
| toast_success (text : string)
| toast_error (text : string)
| console_error (text : string)
| console_log (text : string).

(** ** client/src/pages/ExpenseCategories.tsx *)

Module Pages.

Record CategorySummary : Type := {
  name : string;
  total : JS.number;
  count : nat;
  color : JS.value;
  icon : JS.value
}.

(** [CATEGORY_COLORS[name] || CATEGORY_COLORS.Miscellaneous] *)
Definition categoryColor (name : string) : JS.value :=
  JS.or (JS.get CATEGORY_COLORS name) (JS.get CATEGORY_COLORS "Miscellaneous").

(** [CATEGORY_ICONS[name] || CATEGORY_ICONS.Miscellaneous] *)
Definition categoryIcon (name : string) : JS.value :=
  JS.or (JS.get CATEGORY_ICONS name) (JS.get CATEGORY_ICONS "Miscellaneous").

(** The body of the [forEach] of [calculateCategorySummary]. *)
Definition accumulate (categoryMap : JS.Map Bucket) (transaction : Transaction)
  : JS.Map Bucket :=
  match type transaction with
  | debit =>
      let existing :=
        match JS.map_get (category transaction) categoryMap with
        | Some b => b
        | None => {| bucket_total := 0; bucket_count := 0 |}
        end in
      JS.map_set (category transaction)
        {| bucket_total := bucket_total existing + Qabs (amount transaction);
           bucket_count := bucket_count existing + 1 |}
        categoryMap
  | credit => categoryMap
  end.

Definition categoryMap (transactions : list Transaction) : JS.Map Bucket :=
  fold_left accumulate transactions [].

Definition summary_of (entry : string * Bucket) : CategorySummary :=
  let (name, data) := entry in
  {| name := name;
     total := bucket_total data;
     count := bucket_count data;
     color := categoryColor name;
     icon := categoryIcon name |}.

Definition calculateCategorySummary (transactions : list Transaction)
  : list CategorySummary :=
  JS.sort (fun a b => total b - total a)
    (map summary_of (categoryMap transactions)).

(** [categories.reduce((sum, cat) => sum + cat.total, 0)] *)
Definition totalExpenses (categories : list CategorySummary) : JS.number :=
  fold_left (fun sum cat => sum + total cat) categories 0.

(** The width of the bar of a tile: [(category.total / totalExpenses) * 100]. *)
Definition barWidth (categories : list CategorySummary) (category : CategorySummary)
  : option JS.number :=
  option_map (fun q => q * 100) (JS.js_div (total category) (totalExpenses categories)).

Inductive SortBy : Type := by_date | by_amount | by_confidence.

(** The [useState] cells of the component. *)
Record State : Type := {
  transactions : list Transaction;
  categories : list CategorySummary;
  loading : bool;
  editingTransaction : option string;
  selectedCategory : string;
  filterCategory : string;
  sortBy : SortBy
}.

Definition setTransactions (f : list Transaction -> list Transaction) (st : State) : State :=
  {| transactions := f (transactions st);
     categories := categories st;
     loading := loading st;
     editingTransaction := editingTransaction st;
     selectedCategory := selectedCategory st;
     filterCategory := filterCategory st;
     sortBy := sortBy st |}.

Definition setCategories (c : list CategorySummary) (st : State) : State :=
  {| transactions := transactions st;
     categories := c;
     loading := loading st;
     editingTransaction := editingTransaction st;
     selectedCategory := selectedCategory st;
     filterCategory := filterCategory st;
     sortBy := sortBy st |}.

Definition setEditingTransaction (e : option string) (st : State) : State :=
  {| transactions := transactions st;
     categories := categories st;
     loading := loading st;
     editingTransaction := e;
     selectedCategory := selectedCategory st;
     filterCategory := filterCategory st;
     sortBy := sortBy st |}.

(** [t.id === transactionId ? { ...t, category: newCategory } : t] *)
Definition relabel (transactionId newCategory : string) (t : Transaction) : Transaction :=
  if String.eqb (id t) transactionId then
    {| id := id t; date := date t; description := description t;
       amount := amount t; type := type t;
       category := newCategory; confidence := confidence t |}
  else t.

(** [handleCategoryUpdate].  [transactions] is the constant of the render
    that created the handler; [updateTransactionCategory] is the outcome of
    the awaited backend call; [st] is the state the updates are applied to. *)
Definition handleCategoryUpdate (transactions : list Transaction)
    (transactionId newCategory : string)
    (updateTransactionCategory : Awaited unit) (st : State) : State :=
  match updateTransactionCategory with
  | Resolved _ =>
      let st1 := setTransactions (fun prev => map (relabel transactionId newCategory) prev) st in
      let st2 := setCategories (calculateCategorySummary transactions) st1 in
      setEditingTransaction None st2
  | Rejected => st
  end.

(** [transactions.filter(t => t.category === 'Miscellaneous' || t.confidence < 0.7)] *)
Definition unclassifiedTransactions (transactions : list Transaction) : list Transaction :=
  filter (fun t => String.eqb (category t) "Miscellaneous"
                   || negb (Qle_bool (7 # 10) (confidence t)))%bool
         transactions.

(** The figure of the "Classified" card:
    [transactions.length - unclassifiedTransactions.length]. *)
Definition classified (transactions : list Transaction) : Z :=
  Z.of_nat (List.length transactions)
  - Z.of_nat (List.length (unclassifiedTransactions transactions)).

Definition setLoading (b : bool) (st : State) : State :=
  {| transactions := transactions st;
     categories := categories st;
     loading := b;
     editingTransaction := editingTransaction st;
     selectedCategory := selectedCategory st;
     filterCategory := filterCategory st;
     sortBy := sortBy st |}.

(** [data.transactions || []] *)
Definition received (data : Api.AnalysisData) : list Transaction :=
  match Api.transactions data with
  | Some l => l
  | None => []
  end.

(** [loadExpenseAnalysis]; [analyzeExpenses] is the outcome of the awaited
    backend call. *)
Definition loadExpenseAnalysis (analyzeExpenses : Awaited Api.AnalysisData)
    (st : State) : State * list Notice :=
  let st1 := setLoading true st in
  match analyzeExpenses with
  | Resolved data =>
      let st2 := setTransactions (fun _ => received data) st1 in
      let st3 := setCategories (calculateCategorySummary (received data)) st2 in
      (setLoading false st3, [toast_success "Expense analysis loaded successfully"])
  | Rejected =>
      (setLoading false st1,
       [console_error "Failed to load expense analysis:";
        toast_error "Failed to load expense analysis"])
  end.

(** [Array.prototype.sort] sorts the array it is called on: the state
    array itself when no [filter] made a copy. *)
Definition sortedInPlace (sorted : list Transaction) (st : State) : State :=
  {| transactions := sorted;
     categories := categories st;
     loading := loading st;
     editingTransaction := editingTransaction st;
     selectedCategory := selectedCategory st;
     filterCategory := filterCategory st;
     sortBy := sortBy st |}.

Section Listing.
(** [new Date(s).getTime()]; [None] is [NaN], the time of an invalid date. *)
Variable getTime : string -> option JS.number.

(** The comparison of [getFilteredTransactions].  A [NaN] result counts as
    0 for the sort. *)
Definition compareBy (sortBy : SortBy) (a b : Transaction) : JS.number :=
  match sortBy with
  | by_amount => amount b - amount a
  | by_confidence => confidence b - confidence a
  | by_date =>
      match getTime (date b), getTime (date a) with
      | Some tb, Some ta => tb - ta
      | _, _ => 0
      end
  end.

(** [getFilteredTransactions]: the list it returns and the state after the
    call. *)
Definition getFilteredTransactions (st : State) : list Transaction * State :=
  if negb (String.eqb (filterCategory st) "all") then
    (JS.sort (compareBy (sortBy st))
       (filter (fun t => String.eqb (category t) (filterCategory st)) (transactions st)),
     st)
  else
    let sorted := JS.sort (compareBy (sortBy st)) (transactions st) in
    (sorted, sortedInPlace sorted st).
End Listing.

(** [classificationRate] *)
Definition classificationRate (transactions : list Transaction) : option JS.number :=
  if (0 <? List.length transactions)%nat then
    option_map (fun q => q * 100)
      (JS.js_div (inject_Z (classified transactions))
                 (inject_Z (Z.of_nat (List.length transactions))))
  else Some 0.

End Pages.

(** ** The category view with tiles and a per-category transaction list
       (src/unnamed/part_002) *)

Module Tiles.

Record CategorySummary : Type := {
  name : string;
  total : JS.number;
  count : nat;
  percentage : JS.number;
  color : JS.value;
  icon : JS.value
}.

(** [CATEGORY_COLORS[name] || CATEGORY_COLORS.Miscellaneous] *)
Definition categoryColor (name : string) : JS.value :=
  JS.or (JS.get CATEGORY_COLORS name) (JS.get CATEGORY_COLORS "Miscellaneous").

(** [CATEGORY_ICONS[name] || '📋'] *)
Definition categoryIcon (name : string) : JS.value :=
  JS.or (JS.get CATEGORY_ICONS name) (JS.Str "📋").

(** [transactions.reduce((sum, t) => sum + t.amount, 0)] *)
Definition totalAmount (transactions : list Transaction) : JS.number :=
  fold_left (fun sum t => sum + amount t) transactions 0.

(** The body of the [forEach] of [calculateCategorySummary]. *)
Definition accumulate (categoryMap : JS.Map Bucket) (transaction : Transaction)
  : JS.Map Bucket :=
  let category := category transaction in
  let existing :=
    match JS.map_get category categoryMap with
    | Some b => b
    | None => {| bucket_total := 0; bucket_count := 0 |}
    end in
  JS.map_set category
    {| bucket_total := bucket_total existing + amount transaction;
       bucket_count := bucket_count existing + 1 |}
    categoryMap.

Definition categoryMap (transactions : list Transaction) : JS.Map Bucket :=
  fold_left accumulate transactions [].

(** [totalAmount > 0 ? (data.total / totalAmount) * 100 : 0] *)
Definition percentageOf (total totalAmount : JS.number) : option JS.number :=
  if JS.gt0 totalAmount
  then option_map (fun q => q * 100) (JS.js_div total totalAmount)
  else Some 0.

Definition summary_of (totalAmount : JS.number) (entry : string * Bucket)
  : option CategorySummary :=
  let (name, data) := entry in
  match percentageOf (bucket_total data) totalAmount with
  | Some p =>
      Some {| name := name;
              total := bucket_total data;
              count := bucket_count data;
              percentage := p;
              color := categoryColor name;
              icon := categoryIcon name |}
  | None => None
  end.

(** [Array.prototype.map] with a callback that may evaluate a division
    by zero. *)
Fixpoint mapM (A B : Type) (f : A -> option B) (l : list A) : option (list B) :=
  match l with
  | [] => Some []
  | x :: rest =>
      match f x with
      | Some y => option_map (cons y) (mapM f rest)
      | None => None
      end
  end.

(** [None]: a division by zero was evaluated. *)
Definition calculateCategorySummary (transactions : list Transaction)
  : option (list CategorySummary) :=
  option_map (JS.sort (fun a b => total b - total a))
    (mapM (summary_of (totalAmount transactions)) (categoryMap transactions)).

Definition totalExpenses (categories : list CategorySummary) : JS.number :=
  fold_left (fun sum cat => sum + total cat) categories 0.

Inductive ViewMode : Type := tiles | transactions_view.
Inductive SortBy : Type := by_date | by_amount.

Record State : Type := {
  transactions : list Transaction;
  categories : list CategorySummary;
  loading : bool;
  editingTransaction : option string;
  selectedCategory : string;
  viewMode : ViewMode;
  selectedCategoryForView : string;
  sortBy : SortBy
}.

Definition setTransactions (f : list Transaction -> list Transaction) (st : State) : State :=
  {| transactions := f (transactions st);
     categories := categories st;
     loading := loading st;
     editingTransaction := editingTransaction st;
     selectedCategory := selectedCategory st;
     viewMode := viewMode st;
     selectedCategoryForView := selectedCategoryForView st;
     sortBy := sortBy st |}.

Definition setCategories (c : list CategorySummary) (st : State) : State :=
  {| transactions := transactions st;
     categories := c;
     loading := loading st;
     editingTransaction := editingTransaction st;
     selectedCategory := selectedCategory st;
     viewMode := viewMode st;
     selectedCategoryForView := selectedCategoryForView st;
     sortBy := sortBy st |}.

Definition setEditingTransaction (e : option string) (st : State) : State :=
  {| transactions := transactions st;
     categories := categories st;
     loading := loading st;
     editingTransaction := e;
     selectedCategory := selectedCategory st;
     viewMode := viewMode st;
     selectedCategoryForView := selectedCategoryForView st;
     sortBy := sortBy st |}.

Definition relabel (transactionId newCategory : string) (t : Transaction) : Transaction :=
  if String.eqb (id t) transactionId then
    {| id := id t; date := date t; description := description t;
       amount := amount t; type := type t;
       category := newCategory; confidence := confidence t |}
  else t.

(** [handleCategoryUpdate]; the arguments are as in [Pages].  The result
    is [None] when the summary evaluated a division by zero. *)
Definition handleCategoryUpdate (transactions : list Transaction)
    (transactionId newCategory : string)
    (updateTransactionCategory : Awaited unit) (st : State) : option State :=
  match updateTransactionCategory with
  | Resolved _ =>
      let st1 := setTransactions (fun prev => map (relabel transactionId newCategory) prev) st in
      option_map (fun c => setEditingTransaction None (setCategories c st1))
                 (calculateCategorySummary transactions)
  | Rejected => Some st
  end.

(** [filteredTransactions] *)
Definition filteredTransactions (viewMode : ViewMode) (selectedCategoryForView : string)
    (transactions : list Transaction) : list Transaction :=
  filter (fun transaction =>
            match viewMode with
            | transactions_view =>
                if negb (String.eqb selectedCategoryForView "")
                then String.eqb (category transaction) selectedCategoryForView
                else true
            | tiles => true
            end) transactions.

(** The figure of the "Classified" card:
    [transactions.length
       - filteredTransactions.filter(t => t.category === 'Miscellaneous').length]. *)
Definition classified (viewMode : ViewMode) (selectedCategoryForView : string)
    (transactions : list Transaction) : Z :=
  Z.of_nat (List.length transactions)
  - Z.of_nat (List.length (filter (fun t => String.eqb (category t) "Miscellaneous")
                        (filteredTransactions viewMode selectedCategoryForView transactions))).

Definition setLoading (b : bool) (st : State) : State :=
  {| transactions := transactions st;
     categories := categories st;
     loading := b;
     editingTransaction := editingTransaction st;
     selectedCategory := selectedCategory st;
     viewMode := viewMode st;
     selectedCategoryForView := selectedCategoryForView st;
     sortBy := sortBy st |}.

Definition setViewMode (v : ViewMode) (st : State) : State :=
  {| transactions := transactions st;
     categories := categories st;
     loading := loading st;
     editingTransaction := editingTransaction st;
     selectedCategory := selectedCategory st;
     viewMode := v;
     selectedCategoryForView := selectedCategoryForView st;
     sortBy := sortBy st |}.

Definition setSelectedCategoryForView (c : string) (st : State) : State :=
  {| transactions := transactions st;
     categories := categories st;
     loading := loading st;
     editingTransaction := editingTransaction st;
     selectedCategory := selectedCategory st;
     viewMode := viewMode st;
     selectedCategoryForView := c;
     sortBy := sortBy st |}.

(** [data.transactions || []] *)
Definition received (data : Api.AnalysisData) : list Transaction :=
  match Api.transactions data with
  | Some l => l
  | None => []
  end.

(** [loadExpenseAnalysis]; the state is [None] when the summary evaluated a
    division by zero. *)
Definition loadExpenseAnalysis (analyzeExpenses : Awaited Api.AnalysisData)
    (st : State) : option State * list Notice :=
  let st1 := setLoading true st in
  match analyzeExpenses with
  | Resolved data =>
      let st2 := setTransactions (fun _ => received data) st1 in
      (option_map (fun c => setLoading false (setCategories c st2))
                  (calculateCategorySummary (received data)),
       [toast_success "Expense analysis loaded successfully"])
  | Rejected =>
      (Some (setLoading false st1),
       [console_error "Failed to load expense analysis:";
        toast_error "Failed to load expense analysis"])
  end.

(** [handleCategoryClick] *)
Definition handleCategoryClick (categoryName : string) (st : State) : State :=
  setViewMode transactions_view (setSelectedCategoryForView categoryName st).

(** [handleBackToTiles] *)
Definition handleBackToTiles (st : State) : State :=
  setSelectedCategoryForView "" (setViewMode tiles st).

Section Listing.
(** [new Date(s).getTime()]; [None] is [NaN], the time of an invalid date. *)
Variable getTime : string -> option JS.number.

(** The comparison of [sortedTransactions].  A [NaN] result counts as 0
    for the sort. *)
Definition compareBy (sortBy : SortBy) (a b : Transaction) : JS.number :=
  match sortBy with
  | by_date =>
      match getTime (date b), getTime (date a) with
      | Some tb, Some ta => tb - ta
      | _, _ => 0
      end
  | by_amount => amount b - amount a
  end.

(** [sortedTransactions]: a sorted copy of [filteredTransactions]. *)
Definition sortedTransactions (st : State) : list Transaction :=
  JS.sort (compareBy (sortBy st))
    (filteredTransactions (viewMode st) (selectedCategoryForView st) (transactions st)).
End Listing.

(** The figure of the "Need Review" card:
    [filteredTransactions.filter(t => t.category === 'Miscellaneous').length]. *)
Definition needReview (viewMode : ViewMode) (selectedCategoryForView : string)
    (transactions : list Transaction) : nat :=
  List.length (filter (fun t => String.eqb (category t) "Miscellaneous")
                 (filteredTransactions viewMode selectedCategoryForView transactions)).

(** The percentage under the "Classified" card:
    [(transactions.length - ...length) / transactions.length * 100]. *)
Definition classificationRate (viewMode : ViewMode) (selectedCategoryForView : string)
    (transactions : list Transaction) : option JS.number :=
  option_map (fun q => q * 100)
    (JS.js_div (inject_Z (classified viewMode selectedCategoryForView transactions))
               (inject_Z (Z.of_nat (List.length transactions)))).

End Tiles.

(** ** client/src/pages/SearchInterface.tsx and the store it uses *)

Module Search.

Section Store.
Variables Document SearchResult ChatMessage : Type.

Inductive ResponseLength : Type := brief | balanced | detailed.

Record ServerStatus : Type := {
  status : string;
  chunk_count : Z;
  api_key_configured : bool
}.

Record AppState : Type := {
  documents : list Document;
  isUploading : bool;
  uploadProgress : Z;
  searchResults : list SearchResult;
  isSearching : bool;
  searchQuery : JS.code_units;
  messages : list ChatMessage;
  isTyping : bool;
  responseLength : ResponseLength;
  serverStatus : option ServerStatus
}.

Definition setSearchResults (r : list SearchResult) (st : AppState) : AppState :=
  {| documents := documents st; isUploading := isUploading st;
     uploadProgress := uploadProgress st;
     searchResults := r;
     isSearching := isSearching st; searchQuery := searchQuery st;
     messages := messages st; isTyping := isTyping st;
     responseLength := responseLength st; serverStatus := serverStatus st |}.

Definition setSearching (b : bool) (st : AppState) : AppState :=
  {| documents := documents st; isUploading := isUploading st;
     uploadProgress := uploadProgress st;
     searchResults := searchResults st;
     isSearching := b; searchQuery := searchQuery st;
     messages := messages st; isTyping := isTyping st;
     responseLength := responseLength st; serverStatus := serverStatus st |}.

Definition setSearchQuery (q : JS.code_units) (st : AppState) : AppState :=
  {| documents := documents st; isUploading := isUploading st;
     uploadProgress := uploadProgress st;
     searchResults := searchResults st;
     isSearching := isSearching st; searchQuery := q;
     messages := messages st; isTyping := isTyping st;
     responseLength := responseLength st; serverStatus := serverStatus st |}.

(** [{ query, limit }] *)
Record SearchRequest : Type := { query : JS.code_units; limit : Z }.

(** [{ results, message }] *)
Record SearchResponse : Type := { results : list SearchResult; message : string }.

(** What the handler does besides updating the store. *)
Inductive Effect : Type :=
| CallSearchDocuments (request : SearchRequest)
| ConsoleError (text : string).

(** [handleSearch]: [query] and [limit] are the local state of the
    component, [searchDocuments] answers the awaited backend call. *)
Definition handleSearch (query : JS.code_units) (limit : Z)
    (searchDocuments : SearchRequest -> Awaited SearchResponse)
    (st : AppState) : AppState * list Effect :=
  if negb (JS.truthy_string (JS.trim query)) then (st, [])
  else
    let st1 := setSearching true st in
    let st2 := setSearchQuery query st1 in
    let request := {| query := query; limit := limit |} in
    match searchDocuments request with
    | Resolved response =>
        let st3 := setSearchResults (results response) st2 in
        (setSearching false st3, [CallSearchDocuments request])
    | Rejected =>
        let st3 := setSearchResults [] st2 in
        (setSearching false st3,
         [CallSearchDocuments request; ConsoleError "Search failed:"])
    end.
(** The other actions of the store. *)

Definition setDocuments (d : list Document) (st : AppState) : AppState :=
  {| documents := d; isUploading := isUploading st;
     uploadProgress := uploadProgress st;
     searchResults := searchResults st;
     isSearching := isSearching st; searchQuery := searchQuery st;
     messages := messages st; isTyping := isTyping st;
     responseLength := responseLength st; serverStatus := serverStatus st |}.

Definition addDocument (d : Document) (st : AppState) : AppState :=
  setDocuments (documents st ++ [d]) st.

Definition clearDocuments (st : AppState) : AppState := setDocuments [] st.

Definition setUploading (b : bool) (st : AppState) : AppState :=
  {| documents := documents st; isUploading := b;
     uploadProgress := uploadProgress st;
     searchResults := searchResults st;
     isSearching := isSearching st; searchQuery := searchQuery st;
     messages := messages st; isTyping := isTyping st;
     responseLength := responseLength st; serverStatus := serverStatus st |}.

Definition setUploadProgress (n : Z) (st : AppState) : AppState :=
  {| documents := documents st; isUploading := isUploading st;
     uploadProgress := n;
     searchResults := searchResults st;
     isSearching := isSearching st; searchQuery := searchQuery st;
     messages := messages st; isTyping := isTyping st;
     responseLength := responseLength st; serverStatus := serverStatus st |}.

Definition setMessages (m : list ChatMessage) (st : AppState) : AppState :=
  {| documents := documents st; isUploading := isUploading st;
     uploadProgress := uploadProgress st;
     searchResults := searchResults st;
     isSearching := isSearching st; searchQuery := searchQuery st;
     messages := m; isTyping := isTyping st;
     responseLength := responseLength st; serverStatus := serverStatus st |}.

Definition addMessage (m : ChatMessage) (st : AppState) : AppState :=
  setMessages (messages st ++ [m]) st.

Definition clearMessages (st : AppState) : AppState := setMessages [] st.

Definition setTyping (b : bool) (st : AppState) : AppState :=
  {| documents := documents st; isUploading := isUploading st;
     uploadProgress := uploadProgress st;
     searchResults := searchResults st;
     isSearching := isSearching st; searchQuery := searchQuery st;
     messages := messages st; isTyping := b;
     responseLength := responseLength st; serverStatus := serverStatus st |}.

Definition setResponseLength (r : ResponseLength) (st : AppState) : AppState :=
  {| documents := documents st; isUploading := isUploading st;
     uploadProgress := uploadProgress st;
     searchResults := searchResults st;
     isSearching := isSearching st; searchQuery := searchQuery st;
     messages := messages st; isTyping := isTyping st;
     responseLength := r; serverStatus := serverStatus st |}.

Definition setServerStatus (s : option ServerStatus) (st : AppState) : AppState :=
  {| documents := documents st; isUploading := isUploading st;
     uploadProgress := uploadProgress st;
     searchResults := searchResults st;
     isSearching := isSearching st; searchQuery := searchQuery st;
     messages := messages st; isTyping := isTyping st;
     responseLength := responseLength st; serverStatus := s |}.

(** The initial state of the store. *)
Definition initialState : AppState :=
  {| documents := []; isUploading := false; uploadProgress := 0%Z;
     searchResults := []; isSearching := false; searchQuery := [];
     messages := []; isTyping := false;
     responseLength := balanced; serverStatus := None |}.

(** [quickSearches] *)
Record QuickSearch : Type := { quick_label : string; quick_query : JS.code_units }.

Definition quickSearches : list QuickSearch :=
  [ {| quick_label := "Summary";
       quick_query := JS.literal "summary overview main points" |};
    {| quick_label := "Key Concepts";
       quick_query := JS.literal "key concepts important terms" |};
    {| quick_label := "Methodology";
       quick_query := JS.literal "methodology approach methods" |};
    {| quick_label := "Conclusions";
       quick_query := JS.literal "conclusions results findings" |} ].

(** The click of a quick-search button:
    [() => { setQuery(item.query); handleSearch() }].  [handleSearch] is the
    handler of the render that drew the button: it reads the [query] of
    that render.  The result is the new content of the box and what
    [handleSearch] did. *)
Definition quickSearchClick (item : QuickSearch) (query : JS.code_units) (limit : Z)
    (searchDocuments : SearchRequest -> Awaited SearchResponse)
    (st : AppState) : JS.code_units * (AppState * list Effect) :=
  (quick_query item, handleSearch query limit searchDocuments st).
End Store.

End Search.

(** ** The chat page (the second component of
       client/src/pages/SearchInterface.tsx) *)

Module Chat.

Record Source : Type := {
  filename : string;
  pages : list Z;
  title : string;
  text_preview : string
}.

Inductive Role : Type := user | assistant.

(** [ChatMessage] of the store. *)
Record ChatMessage : Type := {
  id : string;
  role : Role;
  content : JS.code_units;
  timestamp : string;
  sources : option (list Source)
}.

(** [{ message, response_length }] *)
Record ChatRequest : Type := {
  message : JS.code_units;
  response_length : Search.ResponseLength
}.

(** [ChatResponse] *)
Record ChatResponse : Type := {
  response : JS.code_units;
  response_sources : list Source;
  message_id : string;
  created_at : string
}.

(** The two readings of the clock taken when a message is built:
    [Date.now().toString()] and [new Date().toISOString()]. *)
Record Clock : Type := { now_toString : string; now_toISOString : string }.

Inductive Effect : Type :=
| CallChatWithDocuments (request : ChatRequest)
| ConsoleError (text : string).

Definition apology : JS.code_units :=
  JS.literal
    "Sorry, I encountered an error while processing your message. Please try again.".

Section Handler.
Variables Document SearchResult : Type.

(** [handleSendMessage].  [message] is the content of the box, [isTyping]
    and [responseLength] the values of the store the render read;
    [at_send] and [at_failure] are the clock when the user message and the
    error message are built.  The result is the store, the content of the
    box and what was called. *)
Definition handleSendMessage (message : JS.code_units) (isTyping : bool)
    (responseLength : Search.ResponseLength) (at_send at_failure : Clock)
    (chatWithDocuments : ChatRequest -> Awaited ChatResponse)
    (st : Search.AppState Document SearchResult ChatMessage)
  : Search.AppState Document SearchResult ChatMessage * JS.code_units * list Effect :=
  if (negb (JS.truthy_string (JS.trim message)) || isTyping)%bool then (st, message, [])
  else
    let userMessage :=
      {| id := now_toString at_send; role := user; content := message;
         timestamp := now_toISOString at_send; sources := None |} in
    let st1 := Search.addMessage userMessage st in
    let st2 := Search.setTyping true st1 in
    let request := {| message := message; response_length := responseLength |} in
    match chatWithDocuments request with
    | Resolved r =>
        let assistantMessage :=
          {| id := message_id r; role := assistant; content := response r;
             timestamp := created_at r; sources := Some (response_sources r) |} in
        (Search.setTyping false (Search.addMessage assistantMessage st2), [],
         [CallChatWithDocuments request])
    | Rejected =>
        let errorMessage :=
          {| id := now_toString at_failure; role := assistant; content := apology;
             timestamp := now_toISOString at_failure; sources := None |} in
        (Search.setTyping false (Search.addMessage errorMessage st2), [],
         [CallChatWithDocuments request; ConsoleError "Chat failed:"])
    end.
End Handler.

End Chat.

(** ** The status bar (src/unnamed/part_003) *)

Module StatusBar.

Inductive Effect : Type :=
| Confirm
| CallClearDatabase
| CallGetStatus
| Show (n : Notice).

(** The status set when the server does not answer. *)
Definition errorStatus : Search.ServerStatus :=
  {| Search.status := "error"; Search.chunk_count := 0%Z;
     Search.api_key_configured := false |}.

(** [{ ...serverStatus, chunk_count: 0 }] *)
Definition zeroChunks (s : Search.ServerStatus) : Search.ServerStatus :=
  {| Search.status := Search.status s; Search.chunk_count := 0%Z;
     Search.api_key_configured := Search.api_key_configured s |}.

(** [serverStatus?.chunk_count || 0] *)
Definition chunkCount (serverStatus : option Search.ServerStatus) : Z :=
  match serverStatus with
  | Some s => Search.chunk_count s
  | None => 0%Z
  end.

(** The condition under which the "Clear DB" button is drawn. *)
Definition showsClearButton (serverStatus : option Search.ServerStatus) : bool :=
  match serverStatus with
  | Some _ => (0 <? chunkCount serverStatus)%Z
  | None => false
  end.

Section Handlers.
Variables Document SearchResult ChatMessage : Type.

(** [fetchStatus] *)
Definition fetchStatus (getStatus : Awaited Search.ServerStatus)
    (st : Search.AppState Document SearchResult ChatMessage)
  : Search.AppState Document SearchResult ChatMessage * list Effect :=
  match getStatus with
  | Resolved status => (Search.setServerStatus (Some status) st, [CallGetStatus])
  | Rejected =>
      (Search.setServerStatus (Some errorStatus) st,
       [CallGetStatus; Show (console_error "Failed to fetch server status:")])
  end.

(** [handleClearDatabase].  [serverStatus] is the status the render read,
    [isClearing] the local flag, [confirmed] the answer to
    [window.confirm]; the result is the store, [isClearing] and what was
    called and shown. *)
Definition handleClearDatabase (serverStatus : option Search.ServerStatus)
    (isClearing : bool) (confirmed : bool) (clearDatabase : Awaited unit)
    (getStatus : Awaited Search.ServerStatus)
    (st : Search.AppState Document SearchResult ChatMessage)
  : Search.AppState Document SearchResult ChatMessage * bool * list Effect :=
  if negb confirmed then (st, isClearing, [Confirm])
  else
    let before := [Confirm; Show (toast_loading "Clearing database..."); CallClearDatabase] in
    match clearDatabase with
    | Resolved _ =>
        let st1 := Search.clearDocuments st in
        let st2 := Search.setSearchResults [] st1 in
        let st3 := Search.clearMessages st2 in
        let st4 :=
          match serverStatus with
          | Some s => Search.setServerStatus (Some (zeroChunks s)) st3
          | None => st3
          end in
        let logs :=
          Show (console_log "Before clear - serverStatus:")
          :: match serverStatus with
             | Some _ => [Show (console_log "Setting serverStatus to:")]
             | None => []
             end
          ++ [Show (console_log "Fetching fresh server status..."); CallGetStatus] in
        match getStatus with
        | Resolved status =>
            (Search.setServerStatus (Some status) st4, false,
             before ++ logs
             ++ [Show (console_log "Fresh server status:");
                 Show (toast_success "Database cleared successfully")])
        | Rejected =>
            (st4, false,
             before ++ logs
             ++ [Show (console_error "Failed to clear database:");
                 Show (toast_error "Failed to clear database")])
        end
    | Rejected =>
        (st, false,
         before ++ [Show (console_error "Failed to clear database:");
                    Show (toast_error "Failed to clear database")])
    end.
End Handlers.

End StatusBar.

(** ** client/src/pages/DocumentUpload.tsx *)

Module Upload.

Section Handlers.
Variables Metadata SearchResult ChatMessage : Type.

(** [Document] of the store. *)
Record Document : Type := {
  id : string;
  filename : string;
  chunks_count : Z;
  metadata : Metadata;
  uploaded_at : string
}.

(** The part of a [File] the handler reads. *)
Record File : Type := { name : string }.

Inductive Effect : Type :=
| CallUploadFile (file : File)
| CallUploadUrl (url : JS.code_units)
| CallGetStatus
| Show (n : Notice)
| SetTimeout (ms : Z).

(** The document added to the store for a response of the backend. *)
Definition documentOf (result : Api.DocumentInfo Metadata) : Document :=
  {| id := Api.document_id result;
     filename := Api.filename result;
     chunks_count := Api.chunks_count result;
     metadata := Api.metadata result;
     uploaded_at := Api.created_at result |}.

(** [handleFileUpload] *)
Definition handleFileUpload (file : File)
    (uploadFile : Awaited (Api.DocumentInfo Metadata))
    (getStatus : Awaited Search.ServerStatus)
    (st : Search.AppState Document SearchResult ChatMessage)
  : Search.AppState Document SearchResult ChatMessage * list Effect :=
  let st1 := Search.setUploadProgress 0%Z (Search.setUploading true st) in
  let before := [Show (toast_loading ("Uploading " ++ name file ++ "..."));
                 CallUploadFile file] in
  let failed := [Show (console_error "Upload failed:"); Show (toast_error "Upload failed")] in
  match uploadFile with
  | Resolved result =>
      let st2 := Search.addDocument (documentOf result) st1 in
      let st3 := Search.setUploadProgress 100%Z st2 in
      match getStatus with
      | Resolved status =>
          (Search.setUploading false (Search.setServerStatus (Some status) st3),
           before ++ [CallGetStatus;
                      Show (toast_success ("Successfully uploaded " ++ name file));
                      SetTimeout 1000%Z])
      | Rejected =>
          (Search.setUploading false st3,
           before ++ [CallGetStatus] ++ failed ++ [SetTimeout 1000%Z])
      end
  | Rejected =>
      (Search.setUploading false st1, before ++ failed ++ [SetTimeout 1000%Z])
  end.

(** The callback of the timer [handleFileUpload] sets:
    [() => setUploadProgress(0)]. *)
Definition progressTimer (st : Search.AppState Document SearchResult ChatMessage)
  : Search.AppState Document SearchResult ChatMessage :=
  Search.setUploadProgress 0%Z st.

(** [handleUrlUpload]; the result is the store, the content of the URL
    box and what was called and shown. *)
Definition handleUrlUpload (url : JS.code_units)
    (uploadUrl : Awaited (Api.DocumentInfo Metadata))
    (getStatus : Awaited Search.ServerStatus)
    (st : Search.AppState Document SearchResult ChatMessage)
  : Search.AppState Document SearchResult ChatMessage * JS.code_units * list Effect :=
  if negb (JS.truthy_string (JS.trim url)) then
    (st, url, [Show (toast_error "Please enter a valid URL")])
  else
    let st1 := Search.setUploading true st in
    let before := [Show (toast_loading "Processing URL..."); CallUploadUrl url] in
    let failed := [Show (console_error "URL upload failed:");
                   Show (toast_error "Failed to process URL")] in
    match uploadUrl with
    | Resolved result =>
        let st2 := Search.addDocument (documentOf result) st1 in
        match getStatus with
        | Resolved status =>
            (Search.setUploading false (Search.setServerStatus (Some status) st2),
             [], before ++ [CallGetStatus; Show (toast_success "Successfully processed URL")])
        | Rejected =>
            (Search.setUploading false st2, [], before ++ [CallGetStatus] ++ failed)
        end
    | Rejected => (Search.setUploading false st1, url, before ++ failed)
    end.
End Handlers.

End Upload.

(** ** The guards of the two category views on the server status *)

(** [serverStatus?.chunk_count === 0]: the view is replaced by the notice
    "No Documents Uploaded". *)
Definition showsNoDocuments (serverStatus : option Search.ServerStatus) : bool :=
  match serverStatus with
  | Some s => (Search.chunk_count s =? 0)%Z
  | None => false
  end.

(** [serverStatus?.chunk_count && serverStatus.chunk_count > 0]: the effect
    calls [loadExpenseAnalysis]. *)
Definition loadsAnalysis (serverStatus : option Search.ServerStatus) : bool :=
  match serverStatus with
  | Some s => (negb (Search.chunk_count s =? 0)%Z && (0 <? Search.chunk_count s)%Z)%bool
  | None => false
  end.

(** ** The summary of the pages view on binary64 numbers

    [calculateCategorySummary] and [totalExpenses] of
    client/src/pages/ExpenseCategories.tsx once more, with the numbers and
    the additions of the code. *)

Module Binary64.

Definition number := float.

Record Transaction : Type := {
  id : string;
  date : string;
  description : string;
  amount : number;
  type : TxType;
  category : string;
  confidence : number
}.

Record Bucket : Type := { bucket_total : number; bucket_count : nat }.

Record CategorySummary : Type := {
  name : string;
  total : number;
  count : nat;
  color : JS.value;
  icon : JS.value
}.

(** The body of the [forEach] of [calculateCategorySummary]. *)
Definition accumulate (categoryMap : JS.Map Bucket) (transaction : Transaction)
  : JS.Map Bucket :=
  match type transaction with
  | debit =>
      let existing :=
        match JS.map_get (category transaction) categoryMap with
        | Some b => b
        | None => {| bucket_total := 0%float; bucket_count := 0 |}
        end in
      JS.map_set (category transaction)
        {| bucket_total := (bucket_total existing + PrimFloat.abs (amount transaction))%float;
           bucket_count := bucket_count existing + 1 |}
        categoryMap
  | credit => categoryMap
  end.

Definition categoryMap (transactions : list Transaction) : JS.Map Bucket :=
  fold_left accumulate transactions [].

Definition summary_of (entry : string * Bucket) : CategorySummary :=
  let (name, data) := entry in
  {| name := name;
     total := bucket_total data;
     count := bucket_count data;
     color := Pages.categoryColor name;
     icon := Pages.categoryIcon name |}.

(** The stable sort, as [JS.sort]; a [NaN] result of [compareFn] counts as 0. *)
Section Sort.
Variable A : Type.
Variable compareFn : A -> A -> number.

Definition not_positive (v : number) : bool :=
  (PrimFloat.leb v 0%float || negb (PrimFloat.eqb v v))%bool.

Fixpoint insert (x : A) (l : list A) : list A :=
  match l with
  | [] => [x]
  | y :: rest =>
      if not_positive (compareFn x y) then x :: y :: rest
      else y :: insert x rest
  end.

Fixpoint sort (l : list A) : list A :=
  match l with
  | [] => []
  | x :: rest => insert x (sort rest)
  end.
End Sort.

Definition calculateCategorySummary (transactions : list Transaction)
  : list CategorySummary :=
  sort (fun a b => (total b - total a)%float)
    (map summary_of (categoryMap transactions)).

(** [categories.reduce((sum, cat) => sum + cat.total, 0)] *)
Definition totalExpenses (categories : list CategorySummary) : number :=
  fold_left (fun sum cat => (sum + total cat)%float) categories 0%float.

(** The sum of the absolute amounts of the debit transactions, added in the
    order of the list. *)
Definition sum_abs_debits (transactions : list Transaction) : number :=
  fold_left (fun sum t => (sum + PrimFloat.abs (amount t))%float)
    (filter (fun t => match type t with debit => true | credit => false end) transactions)
    0%float.

End Binary64.

(** ** Reference definitions for the statements *)

(** Grouping by category, said directly: the kept transactions of a
    category, the sum of their values in list order, their number, and the
    categories in the order of their first kept transaction. *)

Section Grouping.
Variable keep : Transaction -> bool.
Variable val : Transaction -> JS.number.

Definition in_category (c : string) (t : Transaction) : bool :=
  keep t && String.eqb (category t) c.

Definition members (c : string) (txs : list Transaction) : list Transaction :=
  filter (in_category c) txs.

Definition sum_values (txs : list Transaction) : JS.number :=
  fold_left (fun acc t => acc + val t) txs 0.

Definition bucket_of (txs : list Transaction) (c : string) : Bucket :=
  {| bucket_total := sum_values (members c txs);
     bucket_count := List.length (members c txs) |}.

Fixpoint first_occurrences (l : list string) : list string :=
  match l with
  | [] => []
  | c :: rest => c :: remove string_dec c (first_occurrences rest)
  end.

Definition kept_categories (txs : list Transaction) : list string :=
  first_occurrences (map category (filter keep txs)).

Definition tabulate (f : string -> Bucket) (keys : list string) : JS.Map Bucket :=
  map (fun c => (c, f c)) keys.

Definition grouped (txs : list Transaction) : JS.Map Bucket :=
  tabulate (bucket_of txs) (kept_categories txs).

(** One step of the loop both views run, up to what they keep and add. *)
Definition group_step (m : JS.Map Bucket) (t : Transaction) : JS.Map Bucket :=
  if keep t then
    let existing :=
      match JS.map_get (category t) m with
      | Some b => b
      | None => {| bucket_total := 0; bucket_count := 0 |}
      end in
    JS.map_set (category t)
      {| bucket_total := bucket_total existing + val t;
         bucket_count := bucket_count existing + 1 |} m
  else m.
End Grouping.

(** What the pages view adds per transaction, and what the tiles view keeps. *)
Definition abs_amount (t : Transaction) : JS.number := Qabs (amount t).

Definition any_transaction (t : Transaction) : bool := true.

(** The debit transactions of a category and the sum of their absolute
    amounts. *)
Definition debits_of (c : string) (txs : list Transaction) : list Transaction :=
  members is_debit c txs.

Definition sum_abs (txs : list Transaction) : JS.number := sum_values abs_amount txs.

(** Amounts on which the additions of the code are exact: integers whose
    absolute values add up to at most [2^53], so that every sum the code
    takes of them, in any order, is an integer that binary64 holds. *)
Definition integer_amounts (txs : list Transaction) : Prop :=
  Forall (fun t => exists z : Z, (amount t == inject_Z z)%Q) txs
  /\ (sum_values abs_amount txs <= inject_Z (2 ^ 53))%Q.

(** The totals and the counts a map holds, in the order of its keys. *)
Definition bucket_totals (m : JS.Map Bucket) : list Q :=
  map (fun e => bucket_total (snd e)) m.

Definition bucket_counts (m : JS.Map Bucket) : list nat :=
  map (fun e => bucket_count (snd e)) m.

(** [categoryMap.get(key) || { total: 0, count: 0 }] *)
Definition existing_bucket (key : string) (m : JS.Map Bucket) : Bucket :=
  match JS.map_get key m with
  | Some b => b
  | None => {| bucket_total := 0; bucket_count := 0 |}
  end.

(** The sum of a list of numbers. *)
Fixpoint Qsum (l : list Q) : Q :=
  match l with
  | [] => 0
  | q :: rest => q + Qsum rest
  end.

(** The percentage of the tiles view, with the division of [Q]: the guard
    of the source keeps the divisor positive. *)
Definition guarded_percentage (total totalAmount : JS.number) : JS.number :=
  if JS.gt0 totalAmount then (total / totalAmount) * 100 else 0.

(** The summary the tiles view builds from an entry of its map. *)
Definition Tiles_summary (totalAmount : JS.number) (entry : string * Bucket)
  : Tiles.CategorySummary :=
  {| Tiles.name := fst entry;
     Tiles.total := bucket_total (snd entry);
     Tiles.count := bucket_count (snd entry);
     Tiles.percentage := guarded_percentage (bucket_total (snd entry)) totalAmount;
     Tiles.color := Tiles.categoryColor (fst entry);
     Tiles.icon := Tiles.categoryIcon (fst entry) |}.

(** The time of the date of a transaction; 0 stands for an invalid date. *)
Definition timeOf (getTime : string -> option JS.number) (t : Transaction) : JS.number :=
  match getTime (date t) with
  | Some x => x
  | None => 0
  end.

(** The number a list is ordered by under each choice of the sort menu. *)
Definition Pages_sortKey (getTime : string -> option JS.number) (sortBy : Pages.SortBy)
  : Transaction -> JS.number :=
  match sortBy with
  | Pages.by_amount => amount
  | Pages.by_confidence => confidence
  | Pages.by_date => timeOf getTime
  end.

Definition Tiles_sortKey (getTime : string -> option JS.number) (sortBy : Tiles.SortBy)
  : Transaction -> JS.number :=
  match sortBy with
  | Tiles.by_amount => amount
  | Tiles.by_date => timeOf getTime
  end.

(** The transactions a list is drawn from: those of the chosen category,
    or all of them. *)
Definition Pages_selected (st : Pages.State) : list Transaction :=
  if String.eqb (Pages.filterCategory st) "all" then Pages.transactions st
  else filter (fun t => String.eqb (category t) (Pages.filterCategory st))
              (Pages.transactions st).

Definition Tiles_selected (st : Tiles.State) : list Transaction :=
  match Tiles.viewMode st with
  | Tiles.transactions_view =>
      if String.eqb (Tiles.selectedCategoryForView st) "" then Tiles.transactions st
      else filter (fun t => String.eqb (category t) (Tiles.selectedCategoryForView st))
                  (Tiles.transactions st)
  | Tiles.tiles => Tiles.transactions st
  end.

(** [t.category === 'Miscellaneous'] and [t.confidence < 0.7] *)
Definition is_miscellaneous (t : Transaction) : bool :=
  String.eqb (category t) "Miscellaneous".

Definition low_confidence (t : Transaction) : bool :=
  negb (Qle_bool (7 # 10) (confidence t)).

(** ** Example data *)

(** A debit transaction; the fields the summary does not read are free. *)
Definition a_debit (i d ds : string) (conf a : Q) (c : string) : Transaction :=
  {| id := i; date := d; description := ds; amount := a;
     type := debit; category := c; confidence := conf |}.

(** Inputs of the counterexamples and of the witnesses. *)
Definition example_credit : list Transaction :=
  [ {| id := "t1"; date := "2024-03-01"; description := "SALARY"; amount := 100;
       type := credit; category := "Income"; confidence := 9 # 10 |} ].

Definition example_zero_debit : list Transaction :=
  [ {| id := "t1"; date := "2024-03-01"; description := "FEE WAIVED"; amount := 0;
       type := debit; category := "Shopping"; confidence := 9 # 10 |} ].

Definition example_tie : list Transaction :=
  [ {| id := "t1"; date := "2024-03-01"; description := "AIRLINE"; amount := 100;
       type := debit; category := "Travel"; confidence := 9 # 10 |};
    {| id := "t2"; date := "2024-03-02"; description := "CAFE"; amount := 100;
       type := debit; category := "Food & Dining"; confidence := 9 # 10 |} ].

Definition example_low_confidence : list Transaction :=
  [ {| id := "t1"; date := "2024-03-01"; description := "POS 4471"; amount := 250;
       type := debit; category := "Shopping"; confidence := 1 # 2 |} ].

Definition example_shopping : Transaction :=
  {| id := "t1"; date := "2024-03-01"; description := "POS 4471"; amount := 100;
     type := debit; category := "Shopping"; confidence := 9 # 10 |}.

Definition example_same_description : Transaction :=
  {| id := "t2"; date := "2024-03-08"; description := "POS 4471"; amount := 40;
     type := debit; category := "Shopping"; confidence := 9 # 10 |}.

Definition example_pages_state (txs : list Transaction) : Pages.State :=
  {| Pages.transactions := txs;
     Pages.categories := Pages.calculateCategorySummary txs;
     Pages.loading := false;
     Pages.editingTransaction := Some "t1";
     Pages.selectedCategory := "Travel";
     Pages.filterCategory := "all";
     Pages.sortBy := Pages.by_date |}.

Definition example_tiles_state (txs : list Transaction) : Tiles.State :=
  {| Tiles.transactions := txs;
     Tiles.categories :=
       match Tiles.calculateCategorySummary txs with Some c => c | None => [] end;
     Tiles.loading := false;
     Tiles.editingTransaction := Some "t1";
     Tiles.selectedCategory := "Travel";
     Tiles.viewMode := Tiles.transactions_view;
     Tiles.selectedCategoryForView := "Shopping";
     Tiles.sortBy := Tiles.by_date |}.

Definition example_store : Search.AppState unit unit unit :=
  {| Search.documents := []; Search.isUploading := false; Search.uploadProgress := 0%Z;
     Search.searchResults := [tt]; Search.isSearching := false; Search.searchQuery := [];
     Search.messages := []; Search.isTyping := false;
     Search.responseLength := Search.balanced; Search.serverStatus := None |}.

(** Debits of 0.1, 0.2 and 0.3 (the binary64 numbers nearest to them) in
    categories B, A and A. *)
Definition a_debit64 (i c : string) (a : float) : Binary64.Transaction :=
  {| Binary64.id := i; Binary64.date := "2024-03-01"; Binary64.description := "POS";
     Binary64.amount := a; Binary64.type := debit; Binary64.category := c;
     Binary64.confidence := 0x1.ccccccccccccdp-1%float |}.

Definition example_fractions : list Binary64.Transaction :=
  [ a_debit64 "t1" "B" 0x1.999999999999ap-4%float;
    a_debit64 "t2" "A" 0x1.999999999999ap-3%float;
    a_debit64 "t3" "A" 0x1.3333333333333p-2%float ].

(** Midnight UTC of the two dates of [example_tie], and no other date. *)
Definition example_getTime (s : string) : option JS.number :=
  if String.eqb s "2024-03-01" then Some 1709251200000
  else if String.eqb s "2024-03-02" then Some 1709337600000
  else None.

Definition example_listing_state (filter : string) (sortBy : Pages.SortBy) : Pages.State :=
  {| Pages.transactions := example_tie;
     Pages.categories := Pages.calculateCategorySummary example_tie;
     Pages.loading := false;
     Pages.editingTransaction := None;
     Pages.selectedCategory := "";
     Pages.filterCategory := filter;
     Pages.sortBy := sortBy |}.

Definition example_miscellaneous : Transaction :=
  {| id := "t9"; date := "2024-03-09"; description := "UPI 8841"; amount := 75;
     type := debit; category := "Miscellaneous"; confidence := 0 |}.

Definition example_clock : Chat.Clock :=
  {| Chat.now_toString := "1709251200000";
     Chat.now_toISOString := "2024-03-01T00:00:00.000Z" |}.

(** ** Lists, maps and the stable sort *)

Unset Implicit Arguments.

(** A string literal that is none of the literals of a list. *)
Ltac not_among :=
  simpl; let H := fresh "H" in
  intros H; repeat (destruct H as [H|H]; [discriminate H|]); exact H.

Lemma first_occurrences_In (l : list string) (c : string) :
  In c (first_occurrences l) <-> In c l.
Proof.
  induction l as [|x l IH]; simpl; [tauto|].
  split.
  - intros [H|H]; [now left|].
    apply in_remove in H. right. now apply IH.
  - intros [H|H]; [now left|].
    destruct (string_dec x c) as [E|E]; [now left|].
    right. apply in_in_remove; [congruence|now apply IH].
Qed.

Lemma NoDup_remove_string (x : string) (l : list string) :
  NoDup l -> NoDup (remove string_dec x l).
Proof.
  induction 1 as [|y l Hy Hl IH]; simpl; [constructor|].
  destruct (string_dec x y); [assumption|].
  constructor; [|assumption].
  intros H. apply in_remove in H. tauto.
Qed.

Lemma first_occurrences_NoDup (l : list string) : NoDup (first_occurrences l).
Proof.
  induction l as [|x l IH]; simpl; constructor.
  - apply remove_In.
  - now apply NoDup_remove_string.
Qed.

Lemma first_occurrences_snoc (l : list string) (c : string) :
  first_occurrences (l ++ [c]) =
  if in_dec string_dec c l then first_occurrences l else first_occurrences l ++ [c].
Proof.
  induction l as [|x l IH]; simpl; [reflexivity|].
  rewrite IH.
  destruct (in_dec string_dec c l) as [Hin|Hin].
  - destruct (string_dec x c); [reflexivity|].
    destruct (in_dec string_dec c l); [reflexivity|contradiction].
  - rewrite remove_app. simpl.
    destruct (string_dec x c) as [E|E].
    + now rewrite app_nil_r.
    + destruct (in_dec string_dec c l); [contradiction|reflexivity].
Qed.

Section MapGetFacts.
Variable f : string -> Bucket.

Lemma map_get_tabulate (keys : list string) (c : string) :
  In c keys -> JS.map_get c (tabulate f keys) = Some (f c).
Proof.
  induction keys as [|k keys IH]; simpl; [tauto|].
  intros H. destruct (String.eqb_spec k c) as [E|E]; [now subst|].
  apply IH. destruct H; [contradiction|assumption].
Qed.

Lemma map_get_tabulate_none (keys : list string) (c : string) :
  ~ In c keys -> JS.map_get c (tabulate f keys) = None.
Proof.
  induction keys as [|k keys IH]; simpl; [reflexivity|].
  intros H. destruct (String.eqb_spec k c) as [E|E]; [tauto|].
  apply IH. tauto.
Qed.

End MapGetFacts.

Section MapSetFacts.
Variables f g : string -> Bucket.

Lemma map_set_tabulate_in (keys : list string) (c0 : string) :
  (forall c, c <> c0 -> g c = f c) ->
  NoDup keys -> In c0 keys ->
  JS.map_set c0 (g c0) (tabulate f keys) = tabulate g keys.
Proof.
  intros Hg. induction 1 as [|k keys Hk Hnd IH]; simpl; [tauto|].
  intros Hin. destruct (String.eqb_spec k c0) as [E|E].
  - subst k. f_equal. apply map_ext_in.
    intros c Hc. rewrite Hg; [reflexivity|]. intros ->. contradiction.
  - rewrite (Hg k) by assumption. f_equal. apply IH. destruct Hin; [contradiction|assumption].
Qed.

Lemma map_set_tabulate_fresh (keys : list string) (c0 : string) :
  (forall c, c <> c0 -> g c = f c) ->
  ~ In c0 keys ->
  JS.map_set c0 (g c0) (tabulate f keys) = tabulate g (keys ++ [c0]).
Proof.
  intros Hg. induction keys as [|k keys IH]; simpl; [reflexivity|].
  intros Hin. destruct (String.eqb_spec k c0) as [E|E]; [tauto|].
  rewrite (Hg k) by assumption. f_equal. apply IH. tauto.
Qed.
End MapSetFacts.

Section KeptFacts.
Variable keep : Transaction -> bool.

Lemma members_snoc_other (c : string) (txs : list Transaction) (t : Transaction) :
  in_category keep c t = false -> members keep c (txs ++ [t]) = members keep c txs.
Proof.
  intros H. unfold members. rewrite filter_app. simpl. rewrite H. apply app_nil_r.
Qed.

Lemma members_snoc_same (c : string) (txs : list Transaction) (t : Transaction) :
  in_category keep c t = true -> members keep c (txs ++ [t]) = members keep c txs ++ [t].
Proof.
  intros H. unfold members. rewrite filter_app. simpl. now rewrite H.
Qed.

Lemma members_In (c : string) (txs : list Transaction) (t : Transaction) :
  In t (members keep c txs) <-> In t txs /\ keep t = true /\ category t = c.
Proof.
  unfold members, in_category. rewrite filter_In, andb_true_iff, String.eqb_eq. tauto.
Qed.

Lemma members_nil (c : string) (txs : list Transaction) :
  ~ In c (map category (filter keep txs)) -> members keep c txs = [].
Proof.
  intros H. destruct (members keep c txs) as [|t l] eqn:E; [reflexivity|].
  exfalso. apply H.
  assert (Ht : In t (members keep c txs)) by (rewrite E; now left).
  apply members_In in Ht. destruct Ht as (Ht & Hk & Hc).
  rewrite <- Hc. apply in_map. apply filter_In. tauto.
Qed.

Lemma kept_categories_In (c : string) (txs : list Transaction) :
  In c (kept_categories keep txs) <->
  exists t, In t txs /\ keep t = true /\ category t = c.
Proof.
  unfold kept_categories. rewrite first_occurrences_In, in_map_iff.
  split; intros (t & H1 & H2).
  - apply filter_In in H2. exists t. tauto.
  - exists t. rewrite filter_In. tauto.
Qed.

Lemma kept_categories_NoDup (txs : list Transaction) : NoDup (kept_categories keep txs).
Proof. apply first_occurrences_NoDup. Qed.

End KeptFacts.

Section GroupingFacts.
Variable keep : Transaction -> bool.
Variable val : Transaction -> JS.number.

Lemma bucket_of_snoc_other (c : string) (txs : list Transaction) (t : Transaction) :
  in_category keep c t = false -> bucket_of keep val (txs ++ [t]) c = bucket_of keep val txs c.
Proof. intros H. unfold bucket_of. now rewrite members_snoc_other. Qed.

Lemma bucket_of_snoc_same (txs : list Transaction) (t : Transaction) :
  keep t = true ->
  bucket_of keep val (txs ++ [t]) (category t) =
  {| bucket_total := bucket_total (bucket_of keep val txs (category t)) + val t;
     bucket_count := bucket_count (bucket_of keep val txs (category t)) + 1 |}.
Proof.
  intros H. unfold bucket_of.
  rewrite members_snoc_same by (unfold in_category; now rewrite H, String.eqb_refl).
  simpl. unfold sum_values. rewrite fold_left_app, length_app. reflexivity.
Qed.

(** The loop computes the grouping. *)
Lemma fold_group_step (txs : list Transaction) :
  fold_left (group_step keep val) txs [] = grouped keep val txs.
Proof.
  induction txs as [|t txs IH] using rev_ind; [reflexivity|].
  rewrite fold_left_app. simpl. rewrite IH. clear IH.
  unfold group_step, grouped, kept_categories.
  rewrite filter_app. simpl.
  destruct (keep t) eqn:Hk.
  - rewrite map_app. simpl. rewrite first_occurrences_snoc.
    assert (Hother : forall c, c <> category t ->
              bucket_of keep val (txs ++ [t]) c = bucket_of keep val txs c).
    { intros c Hc. apply bucket_of_snoc_other. unfold in_category.
      rewrite Hk. simpl. apply String.eqb_neq. congruence. }
    destruct (in_dec string_dec (category t) (map category (filter keep txs))) as [Hin|Hin].
    + assert (Hin' := proj2 (first_occurrences_In _ _) Hin).
      rewrite (map_get_tabulate _ _ _ Hin').
      rewrite <- bucket_of_snoc_same by assumption.
      apply map_set_tabulate_in; auto using first_occurrences_NoDup.
    + assert (Hin' : ~ In (category t) (first_occurrences (map category (filter keep txs))))
        by now rewrite first_occurrences_In.
      rewrite (map_get_tabulate_none _ _ _ Hin').
      rewrite <- (map_set_tabulate_fresh (bucket_of keep val txs)); auto.
      f_equal. rewrite bucket_of_snoc_same by assumption.
      unfold bucket_of. rewrite members_nil by assumption. reflexivity.
  - rewrite app_nil_r. apply map_ext. intros c. f_equal. symmetry.
    apply bucket_of_snoc_other. unfold in_category. now rewrite Hk.
Qed.
End GroupingFacts.

(** *** The stable sort *)

Section SortFacts.
Variable A : Type.
Variable compareFn : A -> A -> JS.number.

Lemma insert_perm (x : A) (l : list A) : Permutation (JS.insert compareFn x l) (x :: l).
Proof.
  induction l as [|y l IH]; simpl; [apply Permutation_refl|].
  destruct (Qle_bool (compareFn x y) 0); [apply Permutation_refl|].
  eapply perm_trans; [apply perm_skip, IH|apply perm_swap].
Qed.

Lemma sort_perm (l : list A) : Permutation (JS.sort compareFn l) l.
Proof.
  induction l as [|x l IH]; simpl; [constructor|].
  eapply perm_trans; [apply insert_perm|now apply perm_skip].
Qed.

(** Elements that [compareFn] does not tell apart keep their order. *)
Lemma insert_stable (P : A -> bool) (x : A) (l : list A) :
  (forall y, P x = true -> P y = true -> Qle_bool (compareFn x y) 0 = true) ->
  filter P (JS.insert compareFn x l) = filter P (x :: l).
Proof.
  intros H. induction l as [|y l IH]; [reflexivity|].
  simpl JS.insert. destruct (Qle_bool (compareFn x y) 0) eqn:E; [reflexivity|].
  simpl in *. rewrite IH.
  destruct (P x) eqn:Px; [|reflexivity].
  destruct (P y) eqn:Py; [|reflexivity].
  rewrite (H y eq_refl Py) in E. discriminate.
Qed.

Lemma sort_stable (P : A -> bool) (l : list A) :
  (forall x y, P x = true -> P y = true -> Qle_bool (compareFn x y) 0 = true) ->
  filter P (JS.sort compareFn l) = filter P l.
Proof.
  intros H. induction l as [|x l IH]; [reflexivity|].
  simpl JS.sort. rewrite insert_stable by (intros; now apply H).
  simpl. now rewrite IH.
Qed.
End SortFacts.

Section SortByKey.
Variable A : Type.
Variable key : A -> JS.number.

(** The comparison of both views: [(a, b) => b.key - a.key]. *)
Let descending : A -> A -> JS.number := fun a b => key b - key a.
Let after : A -> A -> Prop := fun a b => (key b <= key a)%Q.

Lemma insert_descending (x : A) (l : list A) :
  StronglySorted after l -> StronglySorted after (JS.insert descending x l).
Proof.
  induction 1 as [|y l Hl IH Hy]; simpl.
  - repeat constructor.
  - destruct (Qle_bool (descending x y) 0) eqn:E.
    + apply Qle_bool_iff in E. unfold descending in E.
      assert (Hxy : (key y <= key x)%Q).
      { apply Qplus_le_l with (z := - key x). setoid_replace (key x + - key x)%Q with 0%Q by ring. exact E. }
      constructor; [now constructor|].
      constructor; [exact Hxy|].
      eapply Forall_impl; [|exact Hy].
      intros z Hz. unfold after in *. eapply Qle_trans; eassumption.
    + assert (Hyx : (key x <= key y)%Q).
      { destruct (Qlt_le_dec (key y) (key x)) as [Hlt|Hle]; [|exact Hle].
        exfalso. assert (Hb : Qle_bool (descending x y) 0 = true).
        { apply Qle_bool_iff. unfold descending.
          apply Qplus_le_l with (z := key x).
          setoid_replace (key y - key x + key x)%Q with (key y) by ring.
          setoid_replace (0 + key x)%Q with (key x) by ring.
          now apply Qlt_le_weak. }
        rewrite Hb in E. discriminate. }
      constructor; [exact IH|].
      eapply Permutation_Forall; [apply Permutation_sym, insert_perm|].
      constructor; assumption.
Qed.

Lemma sort_descending (l : list A) : StronglySorted after (JS.sort descending l).
Proof.
  induction l as [|x l IH]; simpl; [constructor|].
  now apply insert_descending.
Qed.

(** Equal keys: kept in order. *)
Lemma sort_ties (q : JS.number) (l : list A) :
  filter (fun a => Qeq_bool (key a) q) (JS.sort descending l) =
  filter (fun a => Qeq_bool (key a) q) l.
Proof.
  apply sort_stable. intros x y Hx Hy.
  apply Qeq_bool_iff in Hx. apply Qeq_bool_iff in Hy.
  apply Qle_bool_iff. unfold descending. rewrite Hx, Hy.
  setoid_replace (q - q)%Q with 0%Q by ring. apply Qle_refl.
Qed.
End SortByKey.

(** *** Sums *)

Lemma fold_left_Qsum (A : Type) (f : A -> Q) (l : list A) (a : Q) :
  (fold_left (fun acc x => acc + f x) l a == a + Qsum (map f l))%Q.
Proof.
  revert a. induction l as [|x l IH]; intros a; simpl.
  - ring.
  - rewrite IH. ring.
Qed.

Lemma Qsum_perm (l l' : list Q) : Permutation l l' -> (Qsum l == Qsum l')%Q.
Proof.
  induction 1; simpl.
  - reflexivity.
  - now rewrite IHPermutation.
  - ring.
  - now rewrite IHPermutation1.
Qed.

Lemma Qsum_app (l l' : list Q) : (Qsum (l ++ l') == Qsum l + Qsum l')%Q.
Proof.
  induction l as [|x l IH]; simpl; [ring|]. rewrite IH. ring.
Qed.

(** *** What the loop adds to the map *)

Lemma map_set_totals (key : string) (v : Q) (n : nat) (m : JS.Map Bucket) :
  (Qsum (bucket_totals
     (JS.map_set key {| bucket_total := bucket_total (existing_bucket key m) + v;
                        bucket_count := n |} m))
   == Qsum (bucket_totals m) + v)%Q.
Proof.
  unfold existing_bucket.
  induction m as [|[k w] m IH]; simpl.
  - ring.
  - destruct (String.eqb k key); simpl.
    + ring.
    + rewrite IH. ring.
Qed.

Lemma map_set_counts (key : string) (q : Q) (m : JS.Map Bucket) :
  (list_sum (bucket_counts
     (JS.map_set key {| bucket_total := q;
                        bucket_count := bucket_count (existing_bucket key m) + 1 |} m))
   = list_sum (bucket_counts m) + 1)%nat.
Proof.
  unfold existing_bucket.
  induction m as [|[k w] m IH]; simpl.
  - reflexivity.
  - destruct (String.eqb k key); simpl.
    + lia.
    + rewrite IH. lia.
Qed.

Section GroupingSums.
Variable keep : Transaction -> bool.
Variable val : Transaction -> JS.number.

Lemma fold_group_step_totals (txs : list Transaction) (m : JS.Map Bucket) :
  (Qsum (bucket_totals (fold_left (group_step keep val) txs m))
   == Qsum (bucket_totals m) + Qsum (map val (filter keep txs)))%Q.
Proof.
  revert m. induction txs as [|t txs IH]; intros m; simpl.
  - ring.
  - rewrite IH. unfold group_step.
    destruct (keep t); simpl.
    + rewrite (map_set_totals (category t) (val t) _ m). ring.
    + reflexivity.
Qed.

Lemma fold_group_step_counts (txs : list Transaction) (m : JS.Map Bucket) :
  (list_sum (bucket_counts (fold_left (group_step keep val) txs m))
   = list_sum (bucket_counts m) + List.length (filter keep txs))%nat.
Proof.
  revert m. induction txs as [|t txs IH]; intros m; simpl.
  - lia.
  - rewrite IH. unfold group_step.
    destruct (keep t); simpl.
    + rewrite (map_set_counts (category t) _ m). lia.
    + reflexivity.
Qed.

Lemma grouped_count_positive (txs : list Transaction) :
  Forall (fun e => (1 <= bucket_count (snd e))%nat) (grouped keep val txs).
Proof.
  unfold grouped, tabulate. apply Forall_map, Forall_forall.
  intros c Hc. simpl.
  apply kept_categories_In in Hc. destruct Hc as (t & Ht & Hk & Hcat).
  assert (Hm : In t (members keep c txs)) by (apply members_In; tauto).
  destruct (members keep c txs); [contradiction|simpl; lia].
Qed.

Lemma sum_values_Qsum (txs : list Transaction) :
  (sum_values val txs == Qsum (map val txs))%Q.
Proof. unfold sum_values. rewrite fold_left_Qsum. apply Qplus_0_l. Qed.
End GroupingSums.

(** *** The two views run the loop *)

Lemma fold_left_ext (A B : Type) (f g : A -> B -> A) (l : list B) (a : A) :
  (forall x y, f x y = g x y) -> fold_left f l a = fold_left g l a.
Proof.
  intros H. revert a. induction l as [|y l IH]; intros a; simpl; [reflexivity|].
  now rewrite H, IH.
Qed.

Lemma Pages_categoryMap (txs : list Transaction) :
  Pages.categoryMap txs = grouped is_debit abs_amount txs.
Proof.
  unfold Pages.categoryMap. rewrite <- fold_group_step.
  apply fold_left_ext. intros m t.
  unfold Pages.accumulate, group_step, is_debit, abs_amount.
  destruct (type t); reflexivity.
Qed.

Lemma Tiles_categoryMap (txs : list Transaction) :
  Tiles.categoryMap txs = grouped any_transaction amount txs.
Proof.
  unfold Tiles.categoryMap. rewrite <- fold_group_step.
  apply fold_left_ext. intros m t. reflexivity.
Qed.

Lemma percentageOf_guarded (total totalAmount : JS.number) :
  Tiles.percentageOf total totalAmount = Some (guarded_percentage total totalAmount).
Proof.
  unfold Tiles.percentageOf, guarded_percentage, JS.gt0, JS.js_div.
  destruct (Qle_bool totalAmount 0) eqn:E; simpl; [reflexivity|].
  destruct (Qeq_bool totalAmount 0) eqn:E0; [|reflexivity].
  apply Qeq_bool_iff in E0.
  assert (H : Qle_bool totalAmount 0 = true)
    by (apply Qle_bool_iff; rewrite E0; apply Qle_refl).
  rewrite H in E. discriminate.
Qed.

Lemma Tiles_mapM_summary (totalAmount : JS.number) (m : JS.Map Bucket) :
  Tiles.mapM (Tiles.summary_of totalAmount) m = Some (map (Tiles_summary totalAmount) m).
Proof.
  induction m as [|[k b] m IH]; simpl; [reflexivity|].
  rewrite percentageOf_guarded, IH. reflexivity.
Qed.

Lemma Tiles_calculateCategorySummary_eq (txs : list Transaction) :
  Tiles.calculateCategorySummary txs =
  Some (JS.sort (fun a b => Tiles.total b - Tiles.total a)
          (map (Tiles_summary (Tiles.totalAmount txs)) (grouped any_transaction amount txs))).
Proof.
  unfold Tiles.calculateCategorySummary.
  now rewrite Tiles_mapM_summary, Tiles_categoryMap.
Qed.

(** *** The summaries of the two views *)

Lemma Pages_calculateCategorySummary_eq (txs : list Transaction) :
  Pages.calculateCategorySummary txs =
  JS.sort (fun a b => Pages.total b - Pages.total a)
    (map Pages.summary_of (grouped is_debit abs_amount txs)).
Proof. unfold Pages.calculateCategorySummary. now rewrite Pages_categoryMap. Qed.

Lemma Pages_names_tabulate (f : string -> Bucket) (keys : list string) :
  map Pages.name (map Pages.summary_of (tabulate f keys)) = keys.
Proof.
  unfold tabulate. rewrite !map_map. simpl. apply map_id.
Qed.

Lemma Tiles_names_tabulate (q : Q) (f : string -> Bucket) (keys : list string) :
  map Tiles.name (map (Tiles_summary q) (tabulate f keys)) = keys.
Proof.
  unfold tabulate. rewrite !map_map. simpl. apply map_id.
Qed.

Lemma Pages_summary_entries (txs : list Transaction) :
  Forall (fun s => Pages.total s = sum_abs (debits_of (Pages.name s) txs)
                   /\ Pages.count s = List.length (debits_of (Pages.name s) txs))
         (map Pages.summary_of (grouped is_debit abs_amount txs)).
Proof.
  unfold grouped, tabulate. rewrite map_map.
  apply Forall_map, Forall_forall. intros c _. simpl. split; reflexivity.
Qed.

Lemma Tiles_summary_entries (txs : list Transaction) :
  Forall (fun s =>
            Tiles.total s = sum_values amount (members any_transaction (Tiles.name s) txs)
            /\ Tiles.count s = List.length (members any_transaction (Tiles.name s) txs)
            /\ Tiles.percentage s =
                 if JS.gt0 (Tiles.totalAmount txs)
                 then (Tiles.total s / Tiles.totalAmount txs) * 100 else 0)
         (map (Tiles_summary (Tiles.totalAmount txs)) (grouped any_transaction amount txs)).
Proof.
  unfold grouped, tabulate. rewrite map_map.
  apply Forall_map, Forall_forall. intros c _. simpl. repeat split; reflexivity.
Qed.

(** ** Properties of the summary computation *)



(** C1, as the code has it.  The summary of the pages view groups the debit
    transactions only: its categories are those of the debit transactions,
    each total is the sum of the absolute amounts of the debit transactions
    of the category and each count their number; the percentage it shows,
    the bar of a tile, is [total / totalExpenses * 100] when
    [totalExpenses] is not 0.  The percentage field belongs to the summary
    of the tiles view: there it is [total / totalAmount * 100] when
    [totalAmount > 0] and 0 otherwise, [totalAmount] being the sum of the
    amounts of all transactions in the order of the list, and no division
    by zero is evaluated. *)
Theorem C1_summary_by_view (txs : list Transaction) :
  (Permutation (map Pages.name (Pages.calculateCategorySummary txs))
               (kept_categories is_debit txs)
   /\ Forall (fun s =>
                Pages.total s = sum_abs (debits_of (Pages.name s) txs)
                /\ Pages.count s = List.length (debits_of (Pages.name s) txs)
                /\ if Qeq_bool (Pages.totalExpenses (Pages.calculateCategorySummary txs)) 0
                   then True
                   else Pages.barWidth (Pages.calculateCategorySummary txs) s
                        = Some ((Pages.total s
                                 / Pages.totalExpenses (Pages.calculateCategorySummary txs))
                                * 100))
             (Pages.calculateCategorySummary txs))
  /\ exists out,
      Tiles.calculateCategorySummary txs = Some out
      /\ Forall (fun s =>
                   Tiles.percentage s =
                   if JS.gt0 (Tiles.totalAmount txs)
                   then (Tiles.total s / Tiles.totalAmount txs) * 100 else 0)
                out.
Proof.
  split.
  - split.
    + rewrite Pages_calculateCategorySummary_eq.
      eapply perm_trans; [apply Permutation_map, sort_perm|].
      unfold grouped. rewrite Pages_names_tabulate. apply Permutation_refl.
    + assert (H := Pages_summary_entries txs).
      assert (Hperm : Permutation (map Pages.summary_of (grouped is_debit abs_amount txs))
                                  (Pages.calculateCategorySummary txs))
        by (rewrite Pages_calculateCategorySummary_eq; apply Permutation_sym, sort_perm).
      eapply Permutation_Forall; [exact Hperm|].
      eapply Forall_impl; [|exact H].
      intros s (Ht & Hc). repeat split; try assumption.
      unfold Pages.barWidth, JS.js_div.
      now destruct (Qeq_bool _ 0).
  - eexists. split; [apply Tiles_calculateCategorySummary_eq|].
    eapply Permutation_Forall; [apply Permutation_sym, sort_perm|].
    eapply Forall_impl; [|apply Tiles_summary_entries].
    now intros s (_ & _ & Hp).
Qed.

(** C1 fails as stated.  In the tiles view a lone credit transaction gets
    a summary, although its category has no debit transaction; in the pages
    view a lone debit of amount 0 makes the grand total 0 and the bar of its
    tile [0 / 0], not 0. *)
Lemma C1_counterexample :
  (exists s,
      Tiles.calculateCategorySummary example_credit = Some [s]
      /\ Tiles.name s = "Income"
      /\ debits_of "Income" example_credit = []
      /\ Tiles.count s = 1%nat
      /\ Tiles.total s = 100)
  /\ (exists s,
         Pages.calculateCategorySummary example_zero_debit = [s]
         /\ (Pages.totalExpenses [s] == 0)%Q
         /\ Pages.barWidth [s] s = None).
Proof.
  split; eexists; repeat split; reflexivity.
Qed.

Lemma list_sum_perm (l l' : list nat) : Permutation l l' -> list_sum l = list_sum l'.
Proof. induction 1; simpl; lia. Qed.

Lemma Pages_ties_tabulate (q : Q) (f : string -> Bucket) (keys : list string) :
  map Pages.name
      (filter (fun s => Qeq_bool (Pages.total s) q) (map Pages.summary_of (tabulate f keys)))
  = filter (fun c => Qeq_bool (bucket_total (f c)) q) keys.
Proof.
  induction keys as [|k keys IH]; simpl; [reflexivity|].
  destruct (Qeq_bool (bucket_total (f k)) q); simpl; now rewrite IH.
Qed.

Lemma Tiles_ties_tabulate (ta q : Q) (f : string -> Bucket) (keys : list string) :
  map Tiles.name
      (filter (fun s => Qeq_bool (Tiles.total s) q) (map (Tiles_summary ta) (tabulate f keys)))
  = filter (fun c => Qeq_bool (bucket_total (f c)) q) keys.
Proof.
  induction keys as [|k keys IH]; simpl; [reflexivity|].
  destruct (Qeq_bool (bucket_total (f k)) q); simpl; now rewrite IH.
Qed.

(** C3, as the code has it.  In both views the summaries are in descending
    order of total, and the summaries of any one total keep the order in
    which their categories first occur among the grouped transactions (the
    order of insertion in the map): the comparison looks at the totals
    only and the sort is stable. *)
Theorem C3_descending_ties_by_first_occurrence (txs : list Transaction) :
  (StronglySorted (fun a b => (Pages.total b <= Pages.total a)%Q)
                  (Pages.calculateCategorySummary txs)
   /\ forall q,
       map Pages.name (filter (fun s => Qeq_bool (Pages.total s) q)
                              (Pages.calculateCategorySummary txs))
       = filter (fun c => Qeq_bool (sum_abs (debits_of c txs)) q)
                (kept_categories is_debit txs))
  /\ exists out,
      Tiles.calculateCategorySummary txs = Some out
      /\ StronglySorted (fun a b => (Tiles.total b <= Tiles.total a)%Q) out
      /\ forall q,
          map Tiles.name (filter (fun s => Qeq_bool (Tiles.total s) q) out)
          = filter (fun c => Qeq_bool (sum_values amount (members any_transaction c txs)) q)
                   (kept_categories any_transaction txs).
Proof.
  split.
  - rewrite Pages_calculateCategorySummary_eq. split.
    + apply (sort_descending _ Pages.total).
    + intros q. rewrite (sort_ties _ Pages.total). apply Pages_ties_tabulate.
  - eexists. split; [apply Tiles_calculateCategorySummary_eq|]. split.
    + apply (sort_descending _ Tiles.total).
    + intros q. rewrite (sort_ties _ Tiles.total). apply Tiles_ties_tabulate.
Qed.

(** C3 fails as stated: two categories of total 100 come out in the order of
    their first transactions, "Travel" before "Food & Dining", against the
    alphabet, in both views. *)
Lemma C3_counterexample :
  (exists a b,
      Pages.calculateCategorySummary example_tie = [a; b]
      /\ (Pages.total a == Pages.total b)%Q
      /\ String.ltb (Pages.name b) (Pages.name a) = true)
  /\ (exists a b,
         Tiles.calculateCategorySummary example_tie = Some [a; b]
         /\ (Tiles.total a == Tiles.total b)%Q
         /\ String.ltb (Tiles.name b) (Tiles.name a) = true).
Proof.
  split; do 2 eexists; repeat split; reflexivity.
Qed.

(** C9, as the code has it.  In the summary of the pages view every summary
    counts at least one transaction and the counts add up to the number of
    debit transactions.  Each total is the sum of the absolute amounts of
    the debit transactions of its category, added in the order of the list,
    and the total-expenses figure is the sum of the totals, added in the
    order of the summaries.  These sums are the sum of the absolute amounts
    of all debit transactions when the additions are exact: for integer
    amounts whose absolute values add up to at most [2^53]. *)
Theorem C9_summary_conserves_mass (txs : list Transaction) :
  Forall (fun s => (1 <= Pages.count s)%nat) (Pages.calculateCategorySummary txs)
  /\ list_sum (map Pages.count (Pages.calculateCategorySummary txs))
     = List.length (filter is_debit txs)
  /\ Forall (fun s => Pages.total s = sum_abs (debits_of (Pages.name s) txs))
            (Pages.calculateCategorySummary txs)
  /\ Pages.totalExpenses (Pages.calculateCategorySummary txs)
     = fold_left (fun sum q => sum + q)
         (map Pages.total (Pages.calculateCategorySummary txs)) 0
  /\ (integer_amounts txs ->
      (Qsum (map Pages.total (Pages.calculateCategorySummary txs))
       == sum_abs (filter is_debit txs))%Q
      /\ (Pages.totalExpenses (Pages.calculateCategorySummary txs)
          == sum_abs (filter is_debit txs))%Q).
Proof.
  assert (Hperm : Permutation (Pages.calculateCategorySummary txs)
                              (map Pages.summary_of (grouped is_debit abs_amount txs)))
    by (rewrite Pages_calculateCategorySummary_eq; apply sort_perm).
  assert (Htot : map Pages.total (map Pages.summary_of (grouped is_debit abs_amount txs))
                 = bucket_totals (grouped is_debit abs_amount txs))
    by (rewrite map_map; apply map_ext; now intros [k b]).
  assert (Hcnt : map Pages.count (map Pages.summary_of (grouped is_debit abs_amount txs))
                 = bucket_counts (grouped is_debit abs_amount txs))
    by (rewrite map_map; apply map_ext; now intros [k b]).
  assert (Hsum : (Qsum (map Pages.total (Pages.calculateCategorySummary txs))
                  == sum_abs (filter is_debit txs))%Q).
  { rewrite (Qsum_perm _ _ (Permutation_map Pages.total Hperm)), Htot.
    rewrite <- fold_group_step, fold_group_step_totals. simpl.
    unfold sum_abs. rewrite sum_values_Qsum. apply Qplus_0_l. }
  split; [|split; [|split; [|split]]].
  - eapply Permutation_Forall; [apply Permutation_sym, Hperm|].
    apply Forall_map. eapply Forall_impl; [|apply grouped_count_positive].
    now intros [k b].
  - rewrite (list_sum_perm _ _ (Permutation_map Pages.count Hperm)), Hcnt.
    rewrite <- fold_group_step, fold_group_step_counts. reflexivity.
  - eapply Permutation_Forall; [apply Permutation_sym, Hperm|].
    eapply Forall_impl; [|apply Pages_summary_entries].
    now intros s (Ht & _).
  - unfold Pages.totalExpenses.
    generalize (Pages.calculateCategorySummary txs) as cs. intros cs.
    generalize 0 as acc. induction cs as [|c cs IH]; intros acc; simpl; [reflexivity|].
    apply IH.
  - intros _. split; [exact Hsum|].
    unfold Pages.totalExpenses. rewrite fold_left_Qsum, Hsum. apply Qplus_0_l.
Qed.

Lemma C9_witness :
  (Pages.totalExpenses (Pages.calculateCategorySummary example_tie)
   == sum_abs (filter is_debit example_tie))%Q.
Proof.
  apply (C9_summary_conserves_mass example_tie).
  split.
  - repeat constructor; exists 100%Z; reflexivity.
  - vm_compute. discriminate.
Defined.

(** C9 fails as stated on the numbers of the code.  For debits of 0.1 in B
    and of 0.2 and 0.3 in A, the summary is A then B and the total-expenses
    figure is (0.2 + 0.3) + 0.1 = 0.6, while the absolute amounts added in
    the order of the list give 0.6000000000000001. *)
Lemma C9_counterexample :
  map Binary64.name (Binary64.calculateCategorySummary example_fractions) = ["A"; "B"]
  /\ map Binary64.count (Binary64.calculateCategorySummary example_fractions)
     = [2%nat; 1%nat]
  /\ PrimFloat.eqb
       (Binary64.totalExpenses (Binary64.calculateCategorySummary example_fractions))
       0x1.3333333333333p-1%float = true
  /\ PrimFloat.eqb (Binary64.sum_abs_debits example_fractions)
       0x1.3333333333334p-1%float = true
  /\ PrimFloat.eqb
       (Binary64.totalExpenses (Binary64.calculateCategorySummary example_fractions))
       (Binary64.sum_abs_debits example_fractions) = false.
Proof.
  repeat split; vm_compute; reflexivity.
Qed.

(** C4.  Debit amounts 100, 200, 300 in categories A, A, B: both views
    return exactly two summaries, A (total 300, count 2) before B (total
    300, count 1); the percentage of the tiles view and the bar of the
    pages view are 50 for each. *)
Theorem C4_worked_example (i1 i2 i3 d1 d2 d3 s1 s2 s3 : string) (c1 c2 c3 : Q) :
  let txs := [ a_debit i1 d1 s1 c1 100 "A"; a_debit i2 d2 s2 c2 200 "A";
               a_debit i3 d3 s3 c3 300 "B" ] in
  (exists a b,
      Tiles.calculateCategorySummary txs = Some [a; b]
      /\ Tiles.name a = "A" /\ Tiles.total a = 300 /\ Tiles.count a = 2%nat
      /\ (Tiles.percentage a == 50)%Q
      /\ Tiles.name b = "B" /\ Tiles.total b = 300 /\ Tiles.count b = 1%nat
      /\ (Tiles.percentage b == 50)%Q)
  /\ (exists a b wa wb,
         Pages.calculateCategorySummary txs = [a; b]
         /\ Pages.name a = "A" /\ Pages.total a = 300 /\ Pages.count a = 2%nat
         /\ Pages.barWidth [a; b] a = Some wa /\ (wa == 50)%Q
         /\ Pages.name b = "B" /\ Pages.total b = 300 /\ Pages.count b = 1%nat
         /\ Pages.barWidth [a; b] b = Some wb /\ (wb == 50)%Q).
Proof.
  intros txs. split.
  - do 2 eexists. repeat split; try reflexivity; vm_compute; reflexivity.
  - do 4 eexists. repeat split; try reflexivity; vm_compute; reflexivity.
Qed.

(** C7.  On the empty transaction list both views return no summary, the
    total-expenses figure is 0 and no bar is drawn; the summary of the tiles
    view evaluates no division by zero, on the empty list or on any other. *)
Theorem C7_empty_input_safe :
  Pages.calculateCategorySummary [] = []
  /\ Pages.totalExpenses (Pages.calculateCategorySummary []) = 0
  /\ map (Pages.barWidth (Pages.calculateCategorySummary []))
         (Pages.calculateCategorySummary []) = []
  /\ Tiles.calculateCategorySummary [] = Some []
  /\ forall txs, Tiles.calculateCategorySummary txs <> None.
Proof.
  repeat split; try reflexivity.
  intros txs. rewrite Tiles_calculateCategorySummary_eq. discriminate.
Qed.

(** C5.  The two views do not count the same transactions as classified:
    one transaction in category Shopping with confidence 0.5 is classified
    for the tiles view, whatever it displays, and not for the pages view. *)
Theorem C5_classified_counts_differ :
  exists txs, forall viewMode selectedCategoryForView,
    Tiles.classified viewMode selectedCategoryForView txs <> Pages.classified txs.
Proof.
  exists example_low_confidence. intros viewMode sel.
  assert (Hp : Pages.classified example_low_confidence = 0%Z) by reflexivity.
  assert (Hm : forall p : Transaction -> bool,
             filter (fun t => String.eqb (category t) "Miscellaneous")
                    (filter p example_low_confidence) = []).
  { intros p. unfold example_low_confidence. cbn [filter].
    destruct (p _); reflexivity. }
  assert (Ht : Tiles.classified viewMode sel example_low_confidence = 1%Z).
  { unfold Tiles.classified, Tiles.filteredTransactions. now rewrite Hm. }
  rewrite Hp, Ht. discriminate.
Qed.

(** *** The manual override *)

(** C2 does not hold of the code.  After a successful override the handler
    sets the summaries to those of the transactions of the render that
    created it, in which the transaction still has its old category: with
    one Shopping transaction relabelled to Travel, the state holds the
    relabelled transaction and the summary of Shopping, not of Travel. *)
Theorem C2_summary_from_stale_transactions :
  (forall txs T C st,
      Pages.categories (Pages.handleCategoryUpdate txs T C (Resolved tt) st)
      = Pages.calculateCategorySummary txs
      /\ Pages.transactions (Pages.handleCategoryUpdate txs T C (Resolved tt) st)
         = map (Pages.relabel T C) (Pages.transactions st))
  /\ (let st := example_pages_state [example_shopping] in
      let st' := Pages.handleCategoryUpdate (Pages.transactions st) "t1" "Travel"
                   (Resolved tt) st in
      map category (Pages.transactions st') = ["Travel"]
      /\ map Pages.name (Pages.categories st') = ["Shopping"]
      /\ map Pages.name (Pages.calculateCategorySummary (Pages.transactions st'))
         = ["Travel"])
  /\ (let st := example_tiles_state [example_shopping] in
      exists st',
        Tiles.handleCategoryUpdate (Tiles.transactions st) "t1" "Travel"
          (Resolved tt) st = Some st'
        /\ map category (Tiles.transactions st') = ["Travel"]
        /\ map Tiles.name (Tiles.categories st') = ["Shopping"]
        /\ option_map (map Tiles.name)
             (Tiles.calculateCategorySummary (Tiles.transactions st'))
           = Some ["Travel"]).
Proof.
  split; [|split].
  - intros txs T C st. split; reflexivity.
  - repeat split; reflexivity.
  - eexists. repeat split; reflexivity.
Qed.

Lemma relabel_other_pages (T C : string) (t : Transaction) :
  id t <> T -> Pages.relabel T C t = t.
Proof.
  intros H. unfold Pages.relabel.
  destruct (String.eqb_spec (id t) T); [contradiction|reflexivity].
Qed.

Lemma relabel_other_tiles (T C : string) (t : Transaction) :
  id t <> T -> Tiles.relabel T C t = t.
Proof.
  intros H. unfold Tiles.relabel.
  destruct (String.eqb_spec (id t) T); [contradiction|reflexivity].
Qed.

(** C6.  An override of the transaction with id [T] keeps every transaction
    with another id, whatever its description, as it is and where it is in
    the list, and the list keeps its length, in both views and whether the
    backend call succeeds or not. *)
Theorem C6_override_keeps_other_transactions
    (T C : string) (i : nat) (t : Transaction) :
  id t <> T ->
  (forall txs api st,
      nth_error (Pages.transactions st) i = Some t ->
      nth_error (Pages.transactions (Pages.handleCategoryUpdate txs T C api st)) i = Some t
      /\ List.length (Pages.transactions (Pages.handleCategoryUpdate txs T C api st))
         = List.length (Pages.transactions st))
  /\ (forall txs api st,
         nth_error (Tiles.transactions st) i = Some t ->
         exists st',
           Tiles.handleCategoryUpdate txs T C api st = Some st'
           /\ nth_error (Tiles.transactions st') i = Some t
           /\ List.length (Tiles.transactions st') = List.length (Tiles.transactions st)).
Proof.
  intros Hid. split.
  - intros txs [[]|] st Hnth; simpl; [|now split].
    split; [|apply length_map].
    rewrite nth_error_map, Hnth. simpl. now rewrite relabel_other_pages.
  - intros txs [[]|] st Hnth; simpl.
    + rewrite Tiles_calculateCategorySummary_eq. simpl.
      eexists. split; [reflexivity|]. simpl.
      split; [|apply length_map].
      rewrite nth_error_map, Hnth. simpl. now rewrite relabel_other_tiles.
    + exists st. now repeat split.
Qed.

Lemma C6_witness :
  nth_error
    (Pages.transactions
       (Pages.handleCategoryUpdate [example_shopping; example_same_description]
          "t1" "Travel" (Resolved tt)
          (example_pages_state [example_shopping; example_same_description])))
    1 = Some example_same_description.
Proof.
  assert (Hid : id example_same_description <> "t1") by (simpl; discriminate).
  exact (proj1 (proj1 (C6_override_keeps_other_transactions
                         "t1" "Travel" 1 example_same_description Hid)
                  [example_shopping; example_same_description] (Resolved tt)
                  (example_pages_state [example_shopping; example_same_description])
                  eq_refl)).
Defined.

(** *** The colour and icon of a category *)

Lemma own_not_a_key (obj : list (string * string)) (key : string) :
  ~ In key (map fst obj) -> JS.own obj key = None.
Proof.
  induction obj as [|[k v] obj IH]; simpl; [reflexivity|].
  intros H. destruct (String.eqb_spec k key); [tauto|].
  apply IH. tauto.
Qed.

Lemma get_unknown (obj : list (string * string)) (key : string) :
  ~ In key (map fst obj) -> ~ In key JS.object_prototype_keys ->
  JS.get obj key = JS.Undefined.
Proof.
  intros Hk Hp. unfold JS.get. rewrite own_not_a_key by assumption.
  destruct (existsb (String.eqb key) JS.object_prototype_keys) eqn:E; [|reflexivity].
  apply existsb_exists in E. destruct E as (k & Hin & Heq).
  apply String.eqb_eq in Heq. subst k. contradiction.
Qed.

(** C8, as the code has it.  A category name outside the ten-element enum
    (and not the name of a member of [Object.prototype]) does not make the
    lookups fail: in both views the colour is that of Miscellaneous and
    the icon is the clipboard.  The fallback is written in each of the two
    modules. *)
Theorem C8_unknown_category_falls_back (name : string) :
  ~ In name category_enum ->
  ~ In name JS.object_prototype_keys ->
  Pages.categoryColor name = JS.Str "bg-orange-100 text-orange-800 border-orange-200"
  /\ Pages.categoryIcon name = JS.Str "📋"
  /\ Tiles.categoryColor name = JS.Str "bg-orange-100 text-orange-800 border-orange-200"
  /\ Tiles.categoryIcon name = JS.Str "📋".
Proof.
  intros He Hp.
  assert (Hc : JS.get CATEGORY_COLORS name = JS.Undefined)
    by (apply get_unknown; assumption).
  assert (Hi : JS.get CATEGORY_ICONS name = JS.Undefined)
    by (apply get_unknown; assumption).
  unfold Pages.categoryColor, Pages.categoryIcon, Tiles.categoryColor, Tiles.categoryIcon.
  rewrite Hc, Hi. repeat split; reflexivity.
Qed.

Lemma C8_witness :
  Pages.categoryColor "Groceries" = JS.Str "bg-orange-100 text-orange-800 border-orange-200"
  /\ Pages.categoryIcon "Groceries" = JS.Str "📋"
  /\ Tiles.categoryColor "Groceries" = JS.Str "bg-orange-100 text-orange-800 border-orange-200"
  /\ Tiles.categoryIcon "Groceries" = JS.Str "📋".
Proof.
  apply (C8_unknown_category_falls_back "Groceries").
  - not_among.
  - not_among.
Defined.

(** C8 fails as stated: the lookups of "Groceries", which is not in the
    enum, return the defaults instead of failing, and they do so in the
    pages view and in the tiles view. *)
Lemma C8_counterexample :
  ~ In "Groceries" category_enum
  /\ Pages.categoryColor "Groceries" = JS.get CATEGORY_COLORS "Miscellaneous"
  /\ Pages.categoryIcon "Groceries" = JS.get CATEGORY_ICONS "Miscellaneous"
  /\ Tiles.categoryColor "Groceries" = JS.get CATEGORY_COLORS "Miscellaneous"
  /\ Tiles.categoryIcon "Groceries" = JS.Str "📋"
  /\ Pages.categoryColor "Groceries" <> JS.Undefined
  /\ Tiles.categoryColor "Groceries" <> JS.Undefined.
Proof.
  split.
  - not_among.
  - repeat split; try reflexivity; discriminate.
Qed.

(** *** The search handler *)

Lemma trim_start_white (s : JS.code_units) :
  Forall (fun c => JS.is_white_space c = true) s -> JS.trim_start s = [].
Proof.
  induction 1 as [|c s Hc Hs IH]; simpl; [reflexivity|]. now rewrite Hc.
Qed.

Lemma trim_white (s : JS.code_units) :
  Forall (fun c => JS.is_white_space c = true) s -> JS.trim s = [].
Proof.
  intros H. unfold JS.trim. now rewrite (trim_start_white s H).
Qed.

(** C10.  When the backend call of a search fails, the handler ends with
    no search result, the searching flag off and the query recorded; the
    rest of the store, which has no error field, is as before.  When the
    query is empty or made of white space only, the handler calls nothing
    and leaves the store as it is. *)
Theorem C10_search_failure_absorbed (Document SearchResult ChatMessage : Type)
    (query : JS.code_units) (limit : Z)
    (searchDocuments : Search.SearchRequest -> Awaited (Search.SearchResponse SearchResult))
    (st : Search.AppState Document SearchResult ChatMessage) :
  (JS.trim query <> [] ->
   searchDocuments {| Search.query := query; Search.limit := limit |} = Rejected ->
   let st' := fst (Search.handleSearch query limit searchDocuments st) in
   Search.searchResults st' = []
   /\ Search.isSearching st' = false
   /\ Search.searchQuery st' = query
   /\ Search.documents st' = Search.documents st
   /\ Search.isUploading st' = Search.isUploading st
   /\ Search.uploadProgress st' = Search.uploadProgress st
   /\ Search.messages st' = Search.messages st
   /\ Search.isTyping st' = Search.isTyping st
   /\ Search.responseLength st' = Search.responseLength st
   /\ Search.serverStatus st' = Search.serverStatus st)
  /\ (Forall (fun c => JS.is_white_space c = true) query ->
      Search.handleSearch query limit searchDocuments st = (st, [])).
Proof.
  split.
  - intros Hq Hr. unfold Search.handleSearch.
    destruct (JS.trim query) as [|c rest]; [contradiction|].
    simpl. rewrite Hr. simpl. repeat split; reflexivity.
  - intros Hw. unfold Search.handleSearch.
    now rewrite (trim_white query Hw).
Qed.

Lemma C10_witness :
  (Search.searchResults
     (fst (Search.handleSearch [104; 105]%N 5%Z (fun _ => Rejected) example_store)) = []
   /\ Search.isSearching
        (fst (Search.handleSearch [104; 105]%N 5%Z (fun _ => Rejected) example_store)) = false)
  /\ Search.handleSearch [32; 9; 160]%N 5%Z (fun _ => Rejected) example_store
     = (example_store, []).
Proof.
  split.
  - assert (Hq : JS.trim [104; 105]%N <> []) by (vm_compute; discriminate).
    destruct (proj1 (C10_search_failure_absorbed unit unit unit
                       [104; 105]%N 5%Z (fun _ => Rejected) example_store)
                Hq eq_refl) as (H1 & H2 & _).
    split; [exact H1|exact H2].
  - apply (proj2 (C10_search_failure_absorbed unit unit unit
                    [32; 9; 160]%N 5%Z (fun _ => Rejected) example_store)).
    repeat constructor.
Defined.

(** ** Further properties of the summaries *)

Lemma filter_perm (A : Type) (f : A -> bool) (l l' : list A) :
  Permutation l l' -> Permutation (filter f l) (filter f l').
Proof.
  induction 1 as [|x l l' H IH|x y l|l l' l'' H1 IH1 H2 IH2]; simpl.
  - constructor.
  - destruct (f x); [now constructor|assumption].
  - destruct (f x), (f y); try apply Permutation_refl. apply perm_swap.
  - eapply perm_trans; eassumption.
Qed.



Lemma Qsum_scaled (A : Type) (f : A -> Q) (d c : Q) (l : list A) :
  (Qsum (map (fun x => f x / d * c) l) == Qsum (map f l) / d * c)%Q.
Proof.
  induction l as [|x l IH]; simpl.
  - unfold Qdiv. ring.
  - rewrite IH. unfold Qdiv. ring.
Qed.

Lemma sum_values_perm (val : Transaction -> JS.number) (l l' : list Transaction) :
  Permutation l l' -> (sum_values val l == sum_values val l')%Q.
Proof.
  intros H. rewrite !sum_values_Qsum. apply Qsum_perm. now apply Permutation_map.
Qed.


Lemma Pages_names_perm (txs : list Transaction) :
  Permutation (map Pages.name (Pages.calculateCategorySummary txs))
              (kept_categories is_debit txs).
Proof.
  rewrite Pages_calculateCategorySummary_eq.
  eapply perm_trans; [apply Permutation_map, sort_perm|].
  unfold grouped. rewrite Pages_names_tabulate. apply Permutation_refl.
Qed.

Lemma Tiles_names_perm (txs : list Transaction) :
  Permutation
    (map Tiles.name
       (JS.sort (fun a b => Tiles.total b - Tiles.total a)
          (map (Tiles_summary (Tiles.totalAmount txs)) (grouped any_transaction amount txs))))
    (kept_categories any_transaction txs).
Proof.
  eapply perm_trans; [apply Permutation_map, sort_perm|].
  unfold grouped. rewrite Tiles_names_tabulate. apply Permutation_refl.
Qed.

Lemma Pages_summary_facts (txs : list Transaction) :
  Forall (fun s => Pages.total s = sum_abs (debits_of (Pages.name s) txs)
                   /\ Pages.count s = List.length (debits_of (Pages.name s) txs))
         (Pages.calculateCategorySummary txs).
Proof.
  rewrite Pages_calculateCategorySummary_eq.
  eapply Permutation_Forall; [apply Permutation_sym, sort_perm|].
  apply Pages_summary_entries.
Qed.


(** X1.  One tile per category.  In the pages view the names of the summaries
    are pairwise distinct and are the categories that have a debit
    transaction; in the tiles view they are pairwise distinct and are the
    categories that have a transaction. *)
Theorem summary_one_tile_per_category (txs : list Transaction) :
  (NoDup (map Pages.name (Pages.calculateCategorySummary txs))
   /\ forall c, In c (map Pages.name (Pages.calculateCategorySummary txs))
                <-> exists t, In t txs /\ is_debit t = true /\ category t = c)
  /\ exists out,
      Tiles.calculateCategorySummary txs = Some out
      /\ NoDup (map Tiles.name out)
      /\ forall c, In c (map Tiles.name out) <-> exists t, In t txs /\ category t = c.
Proof.
  split.
  - split.
    + eapply Permutation_NoDup; [apply Permutation_sym, Pages_names_perm|].
      apply kept_categories_NoDup.
    + intros c. rewrite <- kept_categories_In. split; intros H.
      * eapply Permutation_in; [apply Pages_names_perm|exact H].
      * eapply Permutation_in; [apply Permutation_sym, Pages_names_perm|exact H].
  - eexists. split; [apply Tiles_calculateCategorySummary_eq|]. split.
    + eapply Permutation_NoDup; [apply Permutation_sym, Tiles_names_perm|].
      apply kept_categories_NoDup.
    + intros c.
      assert (Hk : In c (kept_categories any_transaction txs)
                   <-> exists t, In t txs /\ category t = c).
      { rewrite kept_categories_In. split; intros (t & H); exists t; tauto. }
      rewrite <- Hk. split; intros H.
      * eapply Permutation_in; [apply Tiles_names_perm|exact H].
      * eapply Permutation_in; [apply Permutation_sym, Tiles_names_perm|exact H].
Qed.

Lemma members_perm (keep : Transaction -> bool) (c : string) (l l' : list Transaction) :
  Permutation l l' -> Permutation (members keep c l) (members keep c l').
Proof. apply filter_perm. Qed.

Lemma kept_categories_perm (keep : Transaction -> bool) (l l' : list Transaction) :
  Permutation l l' -> Permutation (kept_categories keep l) (kept_categories keep l').
Proof.
  intros H. apply NoDup_Permutation; try apply kept_categories_NoDup.
  intros c. rewrite !kept_categories_In.
  split; intros (t & Ht & Hr); exists t; split; try assumption.
  - eapply Permutation_in; eassumption.
  - eapply Permutation_in; [apply Permutation_sym|]; eassumption.
Qed.

(** X2.  The order of the transactions does not matter to the categories
    and the counts the tiles of the pages view show.  The summaries of two
    lists with the same transactions in another order have the same
    categories, and summaries of the same category have the same count.
    They have the same total when the additions are exact (integer amounts
    whose absolute values add up to at most [2^53]); on other amounts the
    totals are sums taken in another order and can differ by rounding. *)
Theorem Pages_summary_of_reordered (txs txs' : list Transaction) :
  Permutation txs txs' ->
  Permutation (map Pages.name (Pages.calculateCategorySummary txs))
              (map Pages.name (Pages.calculateCategorySummary txs'))
  /\ forall s s',
      In s (Pages.calculateCategorySummary txs) ->
      In s' (Pages.calculateCategorySummary txs') ->
      Pages.name s = Pages.name s' ->
      Pages.count s = Pages.count s'
      /\ (integer_amounts txs -> (Pages.total s == Pages.total s')%Q).
Proof.
  intros H. split.
  - eapply perm_trans; [apply Pages_names_perm|].
    eapply perm_trans; [apply kept_categories_perm, H|].
    apply Permutation_sym, Pages_names_perm.
  - intros s s' Hs Hs' Hn.
    destruct (proj1 (Forall_forall _ _) (Pages_summary_facts txs) s Hs) as (Ht & Hc).
    destruct (proj1 (Forall_forall _ _) (Pages_summary_facts txs') s' Hs') as (Ht' & Hc').
    rewrite Ht, Hc, Ht', Hc', <- Hn. split.
    + apply Permutation_length. now apply members_perm.
    + intros _. apply sum_values_perm. now apply members_perm.
Qed.

Lemma Pages_summary_of_reordered_witness :
  Permutation (map Pages.name (Pages.calculateCategorySummary example_tie))
              (map Pages.name (Pages.calculateCategorySummary (rev example_tie)))
  /\ (Pages.total (hd (Pages.summary_of ("", {| bucket_total := 0; bucket_count := 0 |}))
                     (Pages.calculateCategorySummary example_tie))
      == Pages.total (nth 1 (Pages.calculateCategorySummary (rev example_tie))
                        (Pages.summary_of ("", {| bucket_total := 0; bucket_count := 0 |}))))%Q.
Proof.
  destruct (Pages_summary_of_reordered example_tie (rev example_tie)
              (Permutation_rev example_tie)) as (Hn & Hs).
  split; [exact Hn|].
  apply Hs.
  - simpl. now left.
  - simpl. right. now left.
  - reflexivity.
  - split.
    + repeat constructor; exists 100%Z; reflexivity.
    + vm_compute. discriminate.
Defined.








(** ** Loading the analysis *)

(** X5.  A load leaves the tiles in step with the transactions.  After a
    successful load the state holds the transactions received (none when
    the response has no [transactions]) and the summary of exactly these;
    after a failed load it holds the transactions and the summary it had.
    In both cases [loading] is off and the edit in progress is untouched. *)
Theorem load_keeps_summary_in_step (analyzeExpenses : Awaited Api.AnalysisData) :
  (forall st,
      let st' := fst (Pages.loadExpenseAnalysis analyzeExpenses st) in
      match analyzeExpenses with
      | Resolved data =>
          Pages.transactions st'
          = match Api.transactions data with Some l => l | None => [] end
          /\ Pages.categories st' = Pages.calculateCategorySummary (Pages.transactions st')
      | Rejected =>
          Pages.transactions st' = Pages.transactions st
          /\ Pages.categories st' = Pages.categories st
      end
      /\ Pages.loading st' = false
      /\ Pages.editingTransaction st' = Pages.editingTransaction st
      /\ Pages.filterCategory st' = Pages.filterCategory st)
  /\ (forall st,
         exists st',
           fst (Tiles.loadExpenseAnalysis analyzeExpenses st) = Some st'
           /\ match analyzeExpenses with
              | Resolved data =>
                  Tiles.transactions st'
                  = match Api.transactions data with Some l => l | None => [] end
                  /\ Tiles.calculateCategorySummary (Tiles.transactions st')
                     = Some (Tiles.categories st')
              | Rejected =>
                  Tiles.transactions st' = Tiles.transactions st
                  /\ Tiles.categories st' = Tiles.categories st
              end
           /\ Tiles.loading st' = false
           /\ Tiles.editingTransaction st' = Tiles.editingTransaction st
           /\ Tiles.viewMode st' = Tiles.viewMode st).
Proof.
  split; intros st.
  - destruct analyzeExpenses as [data|]; simpl; repeat split; reflexivity.
  - destruct analyzeExpenses as [data|]; simpl.
    + rewrite Tiles_calculateCategorySummary_eq. simpl.
      eexists. split; [reflexivity|]. simpl.
      rewrite Tiles_calculateCategorySummary_eq. repeat split; reflexivity.
    + eexists. repeat split; reflexivity.
Qed.

(** ** The transaction lists *)

Section SortExt.
Variable A : Type.
Variables cmp cmp' : A -> A -> JS.number.

Lemma insert_ext_in (x : A) (l : list A) :
  (forall y, In y l -> cmp x y = cmp' x y) ->
  JS.insert cmp x l = JS.insert cmp' x l.
Proof.
  induction l as [|y l IH]; intros H; simpl; [reflexivity|].
  rewrite (H y) by now left.
  destruct (Qle_bool (cmp' x y) 0); [reflexivity|].
  f_equal. apply IH. intros z Hz. apply H. now right.
Qed.

Lemma sort_ext_in (l : list A) :
  (forall x y, In x l -> In y l -> cmp x y = cmp' x y) ->
  JS.sort cmp l = JS.sort cmp' l.
Proof.
  induction l as [|x l IH]; intros H; simpl; [reflexivity|].
  rewrite IH by (intros; apply H; now right).
  apply insert_ext_in. intros y Hy. apply H; [now left|].
  right. eapply Permutation_in; [apply sort_perm|exact Hy].
Qed.
End SortExt.

Lemma filter_length_le (A : Type) (f : A -> bool) (l : list A) :
  (List.length (filter f l) <= List.length l)%nat.
Proof.
  induction l as [|x l IH]; simpl; [lia|]. destruct (f x); simpl; lia.
Qed.

Lemma filter_all (A : Type) (l : list A) : filter (fun _ => true) l = l.
Proof. induction l as [|x l IH]; simpl; [reflexivity|]. now rewrite IH. Qed.

Lemma Pages_getFilteredTransactions_shown
    (getTime : string -> option JS.number) (st : Pages.State) :
  fst (Pages.getFilteredTransactions getTime st)
  = JS.sort (Pages.compareBy getTime (Pages.sortBy st)) (Pages_selected st).
Proof.
  unfold Pages.getFilteredTransactions, Pages_selected.
  now destruct (String.eqb (Pages.filterCategory st) "all").
Qed.

Lemma Tiles_filteredTransactions_selected (st : Tiles.State) :
  Tiles.filteredTransactions (Tiles.viewMode st) (Tiles.selectedCategoryForView st)
    (Tiles.transactions st)
  = Tiles_selected st.
Proof.
  unfold Tiles.filteredTransactions, Tiles_selected.
  destruct (Tiles.viewMode st); [apply filter_all|].
  destruct (String.eqb (Tiles.selectedCategoryForView st) ""); simpl;
    [apply filter_all|reflexivity].
Qed.

Lemma Pages_selected_incl (st : Pages.State) (t : Transaction) :
  In t (Pages_selected st) -> In t (Pages.transactions st).
Proof.
  unfold Pages_selected.
  destruct (String.eqb (Pages.filterCategory st) "all"); [tauto|].
  intros H. now apply filter_In in H.
Qed.

Lemma Tiles_selected_incl (st : Tiles.State) (t : Transaction) :
  In t (Tiles_selected st) -> In t (Tiles.transactions st).
Proof.
  unfold Tiles_selected.
  destruct (Tiles.viewMode st); [tauto|].
  destruct (String.eqb (Tiles.selectedCategoryForView st) ""); [tauto|].
  intros H. now apply filter_In in H.
Qed.

(** X6.  The lists show the chosen transactions, each once.  The list of the
    pages view is a rearrangement of the transactions of the chosen
    category, or of all transactions under "all"; the list of the tiles
    view is a rearrangement of the transactions of the open category.
    Neither is longer than the list of all transactions. *)
Theorem lists_show_the_selection (getTime : string -> option JS.number) :
  (forall st,
      Permutation (fst (Pages.getFilteredTransactions getTime st)) (Pages_selected st)
      /\ (List.length (fst (Pages.getFilteredTransactions getTime st))
          <= List.length (Pages.transactions st))%nat)
  /\ (forall st,
         Permutation (Tiles.sortedTransactions getTime st) (Tiles_selected st)
         /\ (List.length (Tiles.sortedTransactions getTime st)
             <= List.length (Tiles.transactions st))%nat).
Proof.
  split; intros st.
  - rewrite Pages_getFilteredTransactions_shown.
    assert (Hp := sort_perm _ (Pages.compareBy getTime (Pages.sortBy st)) (Pages_selected st)).
    split; [exact Hp|].
    rewrite (Permutation_length Hp). unfold Pages_selected.
    destruct (String.eqb (Pages.filterCategory st) "all"); [lia|apply filter_length_le].
  - unfold Tiles.sortedTransactions. rewrite Tiles_filteredTransactions_selected.
    assert (Hp := sort_perm _ (Tiles.compareBy getTime (Tiles.sortBy st)) (Tiles_selected st)).
    split; [exact Hp|].
    rewrite (Permutation_length Hp). unfold Tiles_selected.
    destruct (Tiles.viewMode st); [lia|].
    destruct (String.eqb (Tiles.selectedCategoryForView st) "");
      [lia|apply filter_length_le].
Qed.

Lemma Pages_compareBy_key (getTime : string -> option JS.number)
    (sb : Pages.SortBy) (a b : Transaction) :
  (sb = Pages.by_date -> getTime (date a) <> None /\ getTime (date b) <> None) ->
  Pages.compareBy getTime sb a b = Pages_sortKey getTime sb b - Pages_sortKey getTime sb a.
Proof.
  destruct sb; simpl; try reflexivity.
  intros H. destruct (H eq_refl) as (Ha & Hb). unfold timeOf.
  destruct (getTime (date b)); [|contradiction].
  destruct (getTime (date a)); [reflexivity|contradiction].
Qed.

Lemma Tiles_compareBy_key (getTime : string -> option JS.number)
    (sb : Tiles.SortBy) (a b : Transaction) :
  (sb = Tiles.by_date -> getTime (date a) <> None /\ getTime (date b) <> None) ->
  Tiles.compareBy getTime sb a b = Tiles_sortKey getTime sb b - Tiles_sortKey getTime sb a.
Proof.
  destruct sb; simpl; try reflexivity.
  intros H. destruct (H eq_refl) as (Ha & Hb). unfold timeOf.
  destruct (getTime (date b)); [|contradiction].
  destruct (getTime (date a)); [reflexivity|contradiction].
Qed.

(** X7.  The lists are in descending order of the chosen key, and transactions
    with the same key keep the order they had.  Under "date" this needs
    every date of the state to be a valid one. *)
Theorem lists_sorted_by_key (getTime : string -> option JS.number) :
  (forall st,
      (Pages.sortBy st = Pages.by_date ->
       forall t, In t (Pages.transactions st) -> getTime (date t) <> None) ->
      StronglySorted
        (fun a b => (Pages_sortKey getTime (Pages.sortBy st) b
                     <= Pages_sortKey getTime (Pages.sortBy st) a)%Q)
        (fst (Pages.getFilteredTransactions getTime st))
      /\ forall q,
          filter (fun t => Qeq_bool (Pages_sortKey getTime (Pages.sortBy st) t) q)
                 (fst (Pages.getFilteredTransactions getTime st))
          = filter (fun t => Qeq_bool (Pages_sortKey getTime (Pages.sortBy st) t) q)
                   (Pages_selected st))
  /\ (forall st,
         (Tiles.sortBy st = Tiles.by_date ->
          forall t, In t (Tiles.transactions st) -> getTime (date t) <> None) ->
         StronglySorted
           (fun a b => (Tiles_sortKey getTime (Tiles.sortBy st) b
                        <= Tiles_sortKey getTime (Tiles.sortBy st) a)%Q)
           (Tiles.sortedTransactions getTime st)
         /\ forall q,
             filter (fun t => Qeq_bool (Tiles_sortKey getTime (Tiles.sortBy st) t) q)
                    (Tiles.sortedTransactions getTime st)
             = filter (fun t => Qeq_bool (Tiles_sortKey getTime (Tiles.sortBy st) t) q)
                      (Tiles_selected st)).
Proof.
  split; intros st Hdate.
  - rewrite Pages_getFilteredTransactions_shown.
    rewrite (sort_ext_in _ (Pages.compareBy getTime (Pages.sortBy st))
               (fun a b => Pages_sortKey getTime (Pages.sortBy st) b
                           - Pages_sortKey getTime (Pages.sortBy st) a)).
    + split; [apply sort_descending|intros q; apply sort_ties].
    + intros a b Ha Hb. apply Pages_compareBy_key. intros E.
      split; apply (Hdate E); now apply Pages_selected_incl.
  - unfold Tiles.sortedTransactions. rewrite Tiles_filteredTransactions_selected.
    rewrite (sort_ext_in _ (Tiles.compareBy getTime (Tiles.sortBy st))
               (fun a b => Tiles_sortKey getTime (Tiles.sortBy st) b
                           - Tiles_sortKey getTime (Tiles.sortBy st) a)).
    + split; [apply sort_descending|intros q; apply sort_ties].
    + intros a b Ha Hb. apply Tiles_compareBy_key. intros E.
      split; apply (Hdate E); now apply Tiles_selected_incl.
Qed.

Lemma lists_sorted_by_key_witness :
  StronglySorted
    (fun a b => (timeOf example_getTime b <= timeOf example_getTime a)%Q)
    (fst (Pages.getFilteredTransactions example_getTime
            (example_listing_state "all" Pages.by_date))).
Proof.
  apply (proj1 (lists_sorted_by_key example_getTime)
           (example_listing_state "all" Pages.by_date)).
  intros _ t Ht. simpl in Ht.
  destruct Ht as [<-|[<-|[]]]; vm_compute; discriminate.
Defined.

(** X8.  Drawing the list of the pages view sorts the state itself under "all".
    With the filter "all" the array of the state is left in the order
    shown; with a category chosen the state is left as it was.  In both
    cases the state keeps the same transactions and the same summaries. *)
Theorem Pages_list_sorts_the_state (getTime : string -> option JS.number)
    (st : Pages.State) :
  Permutation (Pages.transactions (snd (Pages.getFilteredTransactions getTime st)))
              (Pages.transactions st)
  /\ Pages.categories (snd (Pages.getFilteredTransactions getTime st))
     = Pages.categories st
  /\ if String.eqb (Pages.filterCategory st) "all"
     then Pages.transactions (snd (Pages.getFilteredTransactions getTime st))
          = fst (Pages.getFilteredTransactions getTime st)
     else snd (Pages.getFilteredTransactions getTime st) = st.
Proof.
  unfold Pages.getFilteredTransactions.
  destruct (String.eqb (Pages.filterCategory st) "all"); simpl.
  - repeat split. apply sort_perm.
  - repeat split. apply Permutation_refl.
Qed.

(** X9.  Opening a tile and going back.  After a click on the tile of a category
    with a non-empty name the list holds exactly the transactions of that
    category, in their order; after "back" it holds all transactions.
    Neither handler touches the transactions or the summaries, and "back"
    after a click returns a tiles view to the state it was in. *)
Theorem Tiles_open_and_back (c : string) (st : Tiles.State) :
  c <> "" ->
  (let st' := Tiles.handleCategoryClick c st in
   Tiles.filteredTransactions (Tiles.viewMode st') (Tiles.selectedCategoryForView st')
     (Tiles.transactions st')
   = filter (fun t => String.eqb (category t) c) (Tiles.transactions st)
   /\ Tiles.transactions st' = Tiles.transactions st
   /\ Tiles.categories st' = Tiles.categories st)
  /\ (let st' := Tiles.handleBackToTiles (Tiles.handleCategoryClick c st) in
      Tiles.filteredTransactions (Tiles.viewMode st') (Tiles.selectedCategoryForView st')
        (Tiles.transactions st')
      = Tiles.transactions st
      /\ (Tiles.viewMode st = Tiles.tiles ->
          Tiles.selectedCategoryForView st = "" -> st' = st)).
Proof.
  intros Hc. split.
  - simpl. repeat split. unfold Tiles.filteredTransactions.
    apply String.eqb_neq in Hc. now rewrite Hc.
  - simpl. split.
    + unfold Tiles.filteredTransactions. apply filter_all.
    + intros Hv Hs. destruct st. simpl in *. now subst.
Qed.

Lemma Tiles_open_and_back_witness :
  Tiles.handleBackToTiles
    (Tiles.handleCategoryClick "Shopping"
       (Tiles.handleBackToTiles (example_tiles_state [example_shopping])))
  = Tiles.handleBackToTiles (example_tiles_state [example_shopping]).
Proof.
  assert (Hc : "Shopping" <> "") by discriminate.
  exact (proj2 (proj2 (Tiles_open_and_back "Shopping"
                         (Tiles.handleBackToTiles (example_tiles_state [example_shopping]))
                         Hc))
           eq_refl eq_refl).
Defined.

(** ** Classified and unclassified transactions *)

Lemma inject_Z_nonzero (n : Z) : n <> 0%Z -> Qeq_bool (inject_Z n) 0 = false.
Proof.
  intros H. destruct (Qeq_bool (inject_Z n) 0) eqn:E; [|reflexivity].
  apply Qeq_bool_iff in E. unfold Qeq in E. simpl in E. lia.
Qed.

Lemma rate_bounds (k n : Z) :
  (0 <= k <= n)%Z -> (0 < n)%Z ->
  (0 <= inject_Z k / inject_Z n * 100)%Q /\ (inject_Z k / inject_Z n * 100 <= 100)%Q.
Proof.
  intros Hk Hn.
  assert (Hpos : (0 < inject_Z n)%Q) by (unfold Qlt; simpl; lia).
  split.
  - apply Qmult_le_0_compat; [|discriminate].
    apply Qle_shift_div_l; [exact Hpos|]. rewrite Qmult_0_l.
    unfold Qle. simpl. lia.
  - setoid_replace 100%Q with (1 * 100)%Q at 2 by ring.
    apply Qmult_le_compat_r; [|discriminate].
    apply Qle_shift_div_r; [exact Hpos|]. rewrite Qmult_1_l.
    unfold Qle. simpl. lia.
Qed.

(** X10.  The rate of the pages view is always a percentage: a number between 0
    and 100, and 0 when there is no transaction; its division is never by
    zero. *)
Theorem Pages_classificationRate_is_a_percentage (txs : list Transaction) :
  exists r,
    Pages.classificationRate txs = Some r
    /\ (0 <= r)%Q /\ (r <= 100)%Q
    /\ Pages.classificationRate [] = Some 0.
Proof.
  unfold Pages.classificationRate.
  destruct (0 <? List.length txs)%nat eqn:E.
  - apply Nat.ltb_lt in E.
    unfold JS.js_div. rewrite inject_Z_nonzero by lia. simpl.
    eexists. split; [reflexivity|].
    assert (Hu := filter_length_le _
                    (fun t => (String.eqb (category t) "Miscellaneous"
                               || negb (Qle_bool (7 # 10) (confidence t)))%bool) txs).
    destruct (rate_bounds (Pages.classified txs) (Z.of_nat (List.length txs))) as (H1 & H2).
    + unfold Pages.classified, Pages.unclassifiedTransactions. lia.
    + lia.
    + repeat split; assumption.
  - exists 0. repeat split; try reflexivity; discriminate.
Qed.

(** X11.  The rate of the tiles view divides by the number of transactions
    unguarded: it is not a number when there is no transaction, and a
    number between 0 and 100 otherwise. *)
Theorem Tiles_classificationRate_unguarded (viewMode : Tiles.ViewMode)
    (selectedCategoryForView : string) (txs : list Transaction) :
  match txs with
  | [] => Tiles.classificationRate viewMode selectedCategoryForView txs = None
  | _ :: _ =>
      exists r,
        Tiles.classificationRate viewMode selectedCategoryForView txs = Some r
        /\ (0 <= r)%Q /\ (r <= 100)%Q
  end.
Proof.
  destruct txs as [|t txs]; [reflexivity|].
  unfold Tiles.classificationRate, JS.js_div.
  rewrite inject_Z_nonzero by (simpl; lia).
  eexists. split; [reflexivity|].
  apply rate_bounds; [|simpl; lia].
  unfold Tiles.classified.
  assert (H1 := filter_length_le _ (fun t => String.eqb (category t) "Miscellaneous")
                  (Tiles.filteredTransactions viewMode selectedCategoryForView (t :: txs))).
  assert (H2 : (List.length (Tiles.filteredTransactions viewMode selectedCategoryForView
                               (t :: txs))
                <= List.length (t :: txs))%nat)
    by apply filter_length_le.
  lia.
Qed.

Lemma filter_or_length (A : Type) (f g : A -> bool) (l : list A) :
  List.length (filter (fun x => f x || g x)%bool l)
  = (List.length (filter f l)
     + List.length (filter (fun x => negb (f x) && g x)%bool l))%nat.
Proof.
  induction l as [|x l IH]; simpl; [reflexivity|].
  destruct (f x), (g x); simpl; lia.
Qed.

(** X12.  "Need Review" means two things in the pages view.  The card counts
    the transactions in category Miscellaneous or with confidence below
    0.7; the filter "Need Review" lists the transactions in category
    Miscellaneous only.  The card exceeds the list by the number of
    transactions of other categories with confidence below 0.7. *)
Theorem Pages_need_review_card_and_list (getTime : string -> option JS.number)
    (st : Pages.State) :
  Pages.filterCategory st = "Miscellaneous" ->
  List.length (Pages.unclassifiedTransactions (Pages.transactions st))
  = (List.length (fst (Pages.getFilteredTransactions getTime st))
     + List.length (filter (fun t => negb (is_miscellaneous t) && low_confidence t)%bool
                      (Pages.transactions st)))%nat.
Proof.
  intros Hf.
  rewrite Pages_getFilteredTransactions_shown.
  rewrite (Permutation_length (sort_perm _ _ _)).
  unfold Pages_selected. rewrite Hf. simpl.
  unfold Pages.unclassifiedTransactions.
  apply (filter_or_length _ is_miscellaneous low_confidence).
Qed.

Lemma Pages_need_review_card_and_list_witness :
  List.length (Pages.unclassifiedTransactions example_low_confidence)
  = (List.length
       (fst (Pages.getFilteredTransactions example_getTime
               {| Pages.transactions := example_low_confidence;
                  Pages.categories := [];
                  Pages.loading := false;
                  Pages.editingTransaction := None;
                  Pages.selectedCategory := "";
                  Pages.filterCategory := "Miscellaneous";
                  Pages.sortBy := Pages.by_amount |}))
     + 1)%nat.
Proof.
  exact (Pages_need_review_card_and_list example_getTime
           {| Pages.transactions := example_low_confidence;
              Pages.categories := [];
              Pages.loading := false;
              Pages.editingTransaction := None;
              Pages.selectedCategory := "";
              Pages.filterCategory := "Miscellaneous";
              Pages.sortBy := Pages.by_amount |} eq_refl).
Defined.

(** X13.  While a category other than Miscellaneous is open in the tiles view,
    the "Need Review" card shows 0 and the "Classified" card the number of
    all transactions, whatever their categories: only the open category is
    searched for Miscellaneous.  With the tiles shown the card counts the
    Miscellaneous transactions. *)
Theorem Tiles_need_review_of_open_category (sel : string) (txs : list Transaction) :
  sel <> "" -> sel <> "Miscellaneous" ->
  Tiles.needReview Tiles.transactions_view sel txs = 0%nat
  /\ Tiles.classified Tiles.transactions_view sel txs = Z.of_nat (List.length txs)
  /\ Tiles.needReview Tiles.tiles sel txs = List.length (filter is_miscellaneous txs).
Proof.
  intros Hs Hm.
  assert (H0 : filter (fun t => String.eqb (category t) "Miscellaneous")
                 (Tiles.filteredTransactions Tiles.transactions_view sel txs) = []).
  { unfold Tiles.filteredTransactions.
    apply String.eqb_neq in Hs. rewrite Hs. simpl.
    induction txs as [|t txs IH]; simpl; [reflexivity|].
    destruct (String.eqb_spec (category t) sel) as [E|E]; [|exact IH].
    simpl. rewrite E. apply String.eqb_neq in Hm. rewrite Hm. exact IH. }
  unfold Tiles.needReview, Tiles.classified. rewrite H0. simpl.
  repeat split; [lia|].
  unfold Tiles.filteredTransactions. now rewrite filter_all.
Qed.

Lemma Tiles_need_review_of_open_category_witness :
  Tiles.needReview Tiles.transactions_view "Shopping"
    [example_shopping; example_miscellaneous] = 0%nat
  /\ Tiles.classified Tiles.transactions_view "Shopping"
       [example_shopping; example_miscellaneous] = 2%Z
  /\ Tiles.needReview Tiles.tiles "Shopping"
       [example_shopping; example_miscellaneous] = 1%nat.
Proof.
  apply (Tiles_need_review_of_open_category "Shopping"
           [example_shopping; example_miscellaneous]); discriminate.
Defined.

(** ** More on the manual override *)

Lemma relabel_fields_pages (T C : string) (t : Transaction) :
  id (Pages.relabel T C t) = id t
  /\ date (Pages.relabel T C t) = date t
  /\ description (Pages.relabel T C t) = description t
  /\ amount (Pages.relabel T C t) = amount t
  /\ type (Pages.relabel T C t) = type t
  /\ confidence (Pages.relabel T C t) = confidence t
  /\ category (Pages.relabel T C t) = if String.eqb (id t) T then C else category t.
Proof. unfold Pages.relabel. destruct (String.eqb (id t) T); repeat split. Qed.

Lemma relabel_fields_tiles (T C : string) (t : Transaction) :
  id (Tiles.relabel T C t) = id t
  /\ date (Tiles.relabel T C t) = date t
  /\ description (Tiles.relabel T C t) = description t
  /\ amount (Tiles.relabel T C t) = amount t
  /\ type (Tiles.relabel T C t) = type t
  /\ confidence (Tiles.relabel T C t) = confidence t
  /\ category (Tiles.relabel T C t) = if String.eqb (id t) T then C else category t.
Proof. unfold Tiles.relabel. destruct (String.eqb (id t) T); repeat split. Qed.

(** X14.  A successful override changes categories and nothing else.  Every
    transaction stays at its place with its id, date, description, amount,
    type and confidence; its category becomes the new one when its id is
    the given one (for every transaction with that id) and is kept
    otherwise.  The confidence is not raised. *)
Theorem override_changes_the_category_only
    (txs : list Transaction) (T C : string) (i : nat) (t : Transaction) :
  (forall st,
      nth_error (Pages.transactions st) i = Some t ->
      exists t',
        nth_error (Pages.transactions
                     (Pages.handleCategoryUpdate txs T C (Resolved tt) st)) i = Some t'
        /\ id t' = id t /\ date t' = date t /\ description t' = description t
        /\ amount t' = amount t /\ type t' = type t /\ confidence t' = confidence t
        /\ category t' = if String.eqb (id t) T then C else category t)
  /\ (forall st,
         nth_error (Tiles.transactions st) i = Some t ->
         exists st' t',
           Tiles.handleCategoryUpdate txs T C (Resolved tt) st = Some st'
           /\ nth_error (Tiles.transactions st') i = Some t'
           /\ id t' = id t /\ date t' = date t /\ description t' = description t
           /\ amount t' = amount t /\ type t' = type t /\ confidence t' = confidence t
           /\ category t' = if String.eqb (id t) T then C else category t).
Proof.
  split; intros st Hnth.
  - exists (Pages.relabel T C t). split; [|apply relabel_fields_pages].
    simpl. now rewrite nth_error_map, Hnth.
  - simpl. rewrite Tiles_calculateCategorySummary_eq. simpl.
    eexists. exists (Tiles.relabel T C t).
    split; [reflexivity|]. split; [|apply relabel_fields_tiles].
    simpl. now rewrite nth_error_map, Hnth.
Qed.

Lemma override_changes_the_category_only_witness :
  exists t',
    nth_error
      (Pages.transactions
         (Pages.handleCategoryUpdate [example_shopping] "t1" "Travel" (Resolved tt)
            (example_pages_state [example_shopping]))) 0 = Some t'
    /\ id t' = "t1" /\ date t' = "2024-03-01" /\ description t' = "POS 4471"
    /\ amount t' = 100 /\ type t' = debit /\ confidence t' = 9 # 10
    /\ category t' = "Travel".
Proof.
  exact (proj1 (override_changes_the_category_only
                  [example_shopping] "t1" "Travel" 0 example_shopping)
           (example_pages_state [example_shopping]) eq_refl).
Defined.

(** X15.  An override does not take a transaction out of "Need Review" when its
    confidence is below 0.7: in the pages view every such transaction is
    still among the unclassified ones after a successful override,
    whatever category it was given. *)
Theorem Pages_override_keeps_low_confidence_unclassified
    (txs : list Transaction) (T C : string) (st : Pages.State) (t : Transaction) :
  In t (Pages.transactions st) ->
  low_confidence t = true ->
  In (Pages.relabel T C t)
     (Pages.unclassifiedTransactions
        (Pages.transactions (Pages.handleCategoryUpdate txs T C (Resolved tt) st))).
Proof.
  intros Hin Hlow. simpl. unfold Pages.unclassifiedTransactions.
  apply filter_In. split; [now apply in_map|].
  destruct (relabel_fields_pages T C t) as (_ & _ & _ & _ & _ & Hc & _).
  rewrite Hc. unfold low_confidence in Hlow. rewrite Hlow. apply orb_true_r.
Qed.

Lemma Pages_override_keeps_low_confidence_unclassified_witness :
  In (Pages.relabel "t1" "Travel" (hd example_shopping example_low_confidence))
     (Pages.unclassifiedTransactions
        (Pages.transactions
           (Pages.handleCategoryUpdate example_low_confidence "t1" "Travel" (Resolved tt)
              (example_pages_state example_low_confidence)))).
Proof.
  apply (Pages_override_keeps_low_confidence_unclassified
           example_low_confidence "t1" "Travel"
           (example_pages_state example_low_confidence)).
  - simpl. now left.
  - reflexivity.
Defined.

(** ** Search and chat *)

(** X16.  A search that is not blank sends exactly one request, with the query
    as typed (not trimmed) and the limit; whatever the outcome, the former
    results are replaced (by those of the response, or by none), the query
    is recorded and the searching flag is off. *)
Theorem search_sends_one_request (Document SearchResult ChatMessage : Type)
    (query : JS.code_units) (limit : Z)
    (searchDocuments : Search.SearchRequest -> Awaited (Search.SearchResponse SearchResult))
    (st : Search.AppState Document SearchResult ChatMessage) :
  JS.trim query <> [] ->
  let request := {| Search.query := query; Search.limit := limit |} in
  let st' := fst (Search.handleSearch query limit searchDocuments st) in
  let log := snd (Search.handleSearch query limit searchDocuments st) in
  filter (fun e => match e with Search.CallSearchDocuments _ => true | _ => false end) log
  = [Search.CallSearchDocuments request]
  /\ Search.searchResults st'
     = match searchDocuments request with
       | Resolved r => Search.results r
       | Rejected => []
       end
  /\ Search.searchQuery st' = query
  /\ Search.isSearching st' = false
  /\ Search.documents st' = Search.documents st
  /\ Search.messages st' = Search.messages st.
Proof.
  intros Hq. unfold Search.handleSearch.
  destruct (JS.trim query) as [|c rest]; [contradiction|]. simpl.
  destruct (searchDocuments _); simpl; repeat split; reflexivity.
Qed.

Lemma search_sends_one_request_witness :
  Search.searchQuery
    (fst (Search.handleSearch [32; 104; 105]%N 5%Z
            (fun _ => Resolved {| Search.results := [tt; tt]; Search.message := "ok" |})
            example_store))
  = [32; 104; 105]%N.
Proof.
  assert (Hq : JS.trim [32; 104; 105]%N <> []) by (vm_compute; discriminate).
  destruct (search_sends_one_request unit unit unit [32; 104; 105]%N 5%Z
              (fun _ => Resolved {| Search.results := [tt; tt]; Search.message := "ok" |})
              example_store Hq) as (_ & _ & H & _).
  exact H.
Defined.

(** X17.  A quick-search button searches what was in the box, not its own query.
    Its click puts the query of the button in the box and runs the search
    handler of the render that drew it: with a blank box nothing is sent
    and the store is untouched, although the query of every button is not
    blank; with a box that is not blank the request carries the former
    content of the box. *)
Theorem quick_search_reads_the_former_box (Document SearchResult ChatMessage : Type)
    (item : Search.QuickSearch) (query : JS.code_units) (limit : Z)
    (searchDocuments : Search.SearchRequest -> Awaited (Search.SearchResponse SearchResult))
    (st : Search.AppState Document SearchResult ChatMessage) :
  In item Search.quickSearches ->
  JS.trim (Search.quick_query item) <> []
  /\ fst (Search.quickSearchClick item query limit searchDocuments st)
     = Search.quick_query item
  /\ (Forall (fun c => JS.is_white_space c = true) query ->
      snd (Search.quickSearchClick item query limit searchDocuments st) = (st, []))
  /\ (JS.trim query <> [] ->
      hd_error (snd (snd (Search.quickSearchClick item query limit searchDocuments st)))
      = Some (Search.CallSearchDocuments
                {| Search.query := query; Search.limit := limit |})).
Proof.
  intros Hin. split; [|split; [reflexivity|split]].
  - simpl in Hin.
    destruct Hin as [<-|[<-|[<-|[<-|[]]]]]; vm_compute; discriminate.
  - intros Hw. unfold Search.quickSearchClick, Search.handleSearch. simpl.
    now rewrite (trim_white query Hw).
  - intros Hq. unfold Search.quickSearchClick, Search.handleSearch. simpl.
    destruct (JS.trim query) as [|c rest]; [contradiction|]. simpl.
    now destruct (searchDocuments _).
Qed.

Lemma quick_search_reads_the_former_box_witness :
  snd (Search.quickSearchClick
         {| Search.quick_label := "Summary";
            Search.quick_query := JS.literal "summary overview main points" |}
         [] 5%Z
         (fun _ => Resolved {| Search.results := [tt]; Search.message := "ok" |})
         example_store)
  = (example_store, []).
Proof.
  assert (Hin : In {| Search.quick_label := "Summary";
                      Search.quick_query := JS.literal "summary overview main points" |}
                   Search.quickSearches) by (simpl; now left).
  destruct (quick_search_reads_the_former_box unit unit unit _ [] 5%Z
              (fun _ => Resolved {| Search.results := [tt]; Search.message := "ok" |})
              example_store Hin) as (_ & _ & H & _).
  apply H. constructor.
Defined.

(** X18.  Every message sent gets exactly one reply.  When the box is not blank
    and no reply is awaited, the conversation grows by the message of the
    user, as typed, followed by one message of the assistant: the answer of
    the backend with its sources, or the apology without sources when the
    call fails.  Earlier messages are kept, the box is emptied, one request
    is sent and the typing flag is off at the end. *)
Theorem chat_send_appends_question_and_reply (Document SearchResult : Type)
    (message : JS.code_units) (responseLength : Search.ResponseLength)
    (at_send at_failure : Chat.Clock)
    (chatWithDocuments : Chat.ChatRequest -> Awaited Chat.ChatResponse)
    (st : Search.AppState Document SearchResult Chat.ChatMessage) :
  JS.trim message <> [] ->
  let request := {| Chat.message := message; Chat.response_length := responseLength |} in
  let out := Chat.handleSendMessage message false responseLength at_send at_failure
               chatWithDocuments st in
  exists question reply,
    Search.messages (fst (fst out)) = Search.messages st ++ [question; reply]
    /\ Chat.role question = Chat.user /\ Chat.content question = message
    /\ Chat.role reply = Chat.assistant
    /\ match chatWithDocuments request with
       | Resolved r =>
           Chat.content reply = Chat.response r
           /\ Chat.sources reply = Some (Chat.response_sources r)
       | Rejected =>
           Chat.content reply = Chat.apology /\ Chat.sources reply = None
       end
    /\ Search.isTyping (fst (fst out)) = false
    /\ snd (fst out) = []
    /\ hd_error (snd out) = Some (Chat.CallChatWithDocuments request)
    /\ Search.documents (fst (fst out)) = Search.documents st
    /\ Search.searchResults (fst (fst out)) = Search.searchResults st.
Proof.
  intros Hq. unfold Chat.handleSendMessage.
  destruct (JS.trim message) as [|c rest]; [contradiction|]. simpl.
  destruct (chatWithDocuments _) as [r|]; simpl;
    do 2 eexists; (split; [rewrite <- app_assoc; reflexivity|]);
    simpl; repeat split; reflexivity.
Qed.

Lemma chat_send_appends_question_and_reply_witness :
  List.length
    (Search.messages
       (fst (fst (Chat.handleSendMessage [104; 105]%N false Search.balanced
                    example_clock example_clock (fun _ => Rejected)
                    (Search.initialState unit unit Chat.ChatMessage)))))
  = 2%nat.
Proof.
  assert (Hq : JS.trim [104; 105]%N <> []) by (vm_compute; discriminate).
  destruct (chat_send_appends_question_and_reply unit unit [104; 105]%N Search.balanced
              example_clock example_clock (fun _ => Rejected)
              (Search.initialState unit unit Chat.ChatMessage) Hq)
    as (q & r & H & _).
  rewrite H. reflexivity.
Defined.

(** X19.  Nothing is sent while a reply is awaited or when the box is blank: the
    store and the box are left as they are and the backend is not called. *)
Theorem chat_send_is_guarded (Document SearchResult : Type)
    (message : JS.code_units) (isTyping : bool) (responseLength : Search.ResponseLength)
    (at_send at_failure : Chat.Clock)
    (chatWithDocuments : Chat.ChatRequest -> Awaited Chat.ChatResponse)
    (st : Search.AppState Document SearchResult Chat.ChatMessage) :
  isTyping = true \/ Forall (fun c => JS.is_white_space c = true) message ->
  Chat.handleSendMessage message isTyping responseLength at_send at_failure
    chatWithDocuments st
  = (st, message, []).
Proof.
  intros [->|Hw]; unfold Chat.handleSendMessage.
  - now rewrite orb_true_r.
  - now rewrite (trim_white message Hw).
Qed.

Lemma chat_send_is_guarded_witness :
  Chat.handleSendMessage [104; 105]%N true Search.balanced
    example_clock example_clock (fun _ => Rejected)
    (Search.initialState unit unit Chat.ChatMessage)
  = (Search.initialState unit unit Chat.ChatMessage, [104; 105]%N, []).
Proof.
  apply (chat_send_is_guarded unit unit). now left.
Defined.

(** ** The server status, clearing and uploading *)

(** X20.  The status guards agree.  The "Clear DB" button is drawn exactly when
    the category views load the analysis (a positive chunk count), never
    together with the notice "No Documents Uploaded"; and after a status
    request that failed the status is the error status with 0 chunks, so
    the notice is shown, nothing is loaded and the button is hidden. *)
Theorem status_guards_agree (Document SearchResult ChatMessage : Type)
    (serverStatus : option Search.ServerStatus)
    (getStatus : Awaited Search.ServerStatus)
    (st : Search.AppState Document SearchResult ChatMessage) :
  StatusBar.showsClearButton serverStatus = loadsAnalysis serverStatus
  /\ (showsNoDocuments serverStatus && loadsAnalysis serverStatus = false)%bool
  /\ Search.serverStatus (fst (StatusBar.fetchStatus getStatus st)) <> None
  /\ (let st' := fst (StatusBar.fetchStatus Rejected st) in
      showsNoDocuments (Search.serverStatus st') = true
      /\ loadsAnalysis (Search.serverStatus st') = false
      /\ StatusBar.showsClearButton (Search.serverStatus st') = false
      /\ Search.documents st' = Search.documents st).
Proof.
  repeat split.
  - destruct serverStatus as [s|]; [|reflexivity]. simpl.
    destruct (Z.ltb_spec 0 (Search.chunk_count s)) as [H|H];
      destruct (Z.eqb_spec (Search.chunk_count s) 0) as [E|E]; simpl; try reflexivity; lia.
  - destruct serverStatus as [s|]; [|reflexivity]. simpl.
    destruct (Z.eqb_spec (Search.chunk_count s) 0) as [E|E]; reflexivity.
  - destruct getStatus; simpl; discriminate.
Qed.

(** X21.  Clearing is all or nothing for the store.  When the user declines, or
    when the backend refuses to clear, the store is exactly as before and
    no status is requested.  When the backend has cleared the database,
    the documents, the search results and the conversation of the store are
    empty, whether or not the status request that follows succeeds.  The
    clearing flag is off whenever the user accepted. *)
Theorem clear_database_all_or_nothing (Document SearchResult ChatMessage : Type)
    (serverStatus : option Search.ServerStatus) (isClearing confirmed : bool)
    (clearDatabase : Awaited unit) (getStatus : Awaited Search.ServerStatus)
    (st : Search.AppState Document SearchResult ChatMessage) :
  let out := StatusBar.handleClearDatabase serverStatus isClearing confirmed
               clearDatabase getStatus st in
  match confirmed, clearDatabase with
  | true, Resolved _ =>
      Search.documents (fst (fst out)) = []
      /\ Search.searchResults (fst (fst out)) = []
      /\ Search.messages (fst (fst out)) = []
      /\ Search.searchQuery (fst (fst out)) = Search.searchQuery st
      /\ snd (fst out) = false
      /\ In StatusBar.CallGetStatus (snd out)
  | true, Rejected =>
      fst (fst out) = st
      /\ snd (fst out) = false
      /\ In StatusBar.CallClearDatabase (snd out)
      /\ ~ In StatusBar.CallGetStatus (snd out)
  | false, _ => out = (st, isClearing, [StatusBar.Confirm])
  end.
Proof.
  destruct confirmed; [|reflexivity].
  destruct clearDatabase as [[]|]; simpl.
  - destruct getStatus, serverStatus; simpl; repeat split; try reflexivity;
      repeat (try (left; reflexivity); right).
  - repeat split; try (right; right; left; reflexivity).
    intros H. repeat (destruct H as [H|H]; [discriminate H|]). exact H.
Qed.

(** X22.  A clearing whose status request fails is reported as failed although it
    was done.  The store is emptied and the status the render had is kept
    with its chunk count set to 0, so the button disappears and the
    category views show "No Documents Uploaded"; the toast shown is the
    error toast.  When the status request succeeds, the status is the one
    received and the toast is the success toast. *)
Theorem clear_database_then_status (Document SearchResult ChatMessage : Type)
    (s : Search.ServerStatus) (isClearing : bool)
    (getStatus : Awaited Search.ServerStatus)
    (st : Search.AppState Document SearchResult ChatMessage) :
  let out := StatusBar.handleClearDatabase (Some s) isClearing true (Resolved tt)
               getStatus st in
  match getStatus with
  | Resolved fresh =>
      Search.serverStatus (fst (fst out)) = Some fresh
      /\ last (snd out) StatusBar.Confirm
         = StatusBar.Show (toast_success "Database cleared successfully")
  | Rejected =>
      Search.serverStatus (fst (fst out)) = Some (StatusBar.zeroChunks s)
      /\ Search.documents (fst (fst out)) = []
      /\ StatusBar.showsClearButton (Search.serverStatus (fst (fst out))) = false
      /\ showsNoDocuments (Search.serverStatus (fst (fst out))) = true
      /\ last (snd out) StatusBar.Confirm
         = StatusBar.Show (toast_error "Failed to clear database")
  end.
Proof.
  destruct getStatus; simpl; repeat split; reflexivity.
Qed.

(** X23.  An upload adds its document once, or not at all.  After the handler
    the documents are those before followed by the document of the
    response when the upload call succeeded, and those before when it
    failed; a failure of the status request that follows does not take the
    document back, but the error toast is shown in place of the success
    toast.  The uploading flag ends off, the progress ends at 100 after a
    successful upload call and at 0 otherwise, and the timer that is set
    puts it back to 0. *)
Theorem upload_adds_its_document_once (Metadata SearchResult ChatMessage : Type)
    (file : Upload.File)
    (uploadFile : Awaited (Api.DocumentInfo Metadata))
    (getStatus : Awaited Search.ServerStatus)
    (st : Search.AppState (Upload.Document Metadata) SearchResult ChatMessage) :
  let out := Upload.handleFileUpload file uploadFile getStatus st in
  Search.documents (fst out)
  = Search.documents st
    ++ match uploadFile with
       | Resolved result => [Upload.documentOf result]
       | Rejected => []
       end
  /\ Search.isUploading (fst out) = false
  /\ Search.uploadProgress (fst out)
     = match uploadFile with Resolved _ => 100%Z | Rejected => 0%Z end
  /\ Search.uploadProgress (Upload.progressTimer (fst out)) = 0%Z
  /\ last (snd out) (Upload.CallGetStatus) = Upload.SetTimeout 1000%Z
  /\ match uploadFile, getStatus with
     | Resolved _, Resolved status =>
         Search.serverStatus (fst out) = Some status
         /\ In (Upload.Show (toast_success ("Successfully uploaded " ++ Upload.name file)))
               (snd out)
         /\ ~ In (Upload.Show (toast_error "Upload failed")) (snd out)
     | Resolved _, Rejected =>
         Search.serverStatus (fst out) = Search.serverStatus st
         /\ In (Upload.Show (toast_error "Upload failed")) (snd out)
     | Rejected, _ =>
         Search.serverStatus (fst out) = Search.serverStatus st
         /\ In (Upload.Show (toast_error "Upload failed")) (snd out)
         /\ ~ In Upload.CallGetStatus (snd out)
     end
  /\ Search.messages (fst out) = Search.messages st
  /\ Search.searchResults (fst out) = Search.searchResults st.
Proof.
  destruct uploadFile as [result|]; [destruct getStatus as [status|]|]; simpl.
  - repeat split; try reflexivity.
    + right; right; right; left; reflexivity.
    + intros H. repeat (destruct H as [H|H]; [discriminate H|]). exact H.
  - repeat split; try reflexivity.
    do 4 right; left; reflexivity.
  - rewrite app_nil_r. repeat split; try reflexivity.
    + do 3 right; left; reflexivity.
    + intros H. repeat (destruct H as [H|H]; [discriminate H|]). exact H.
Qed.

(** X24.  An upload from a URL.  With a blank URL nothing is called and the store
    and the box are untouched.  Otherwise the documents grow by the
    document of the response exactly when the upload call succeeded, the
    box is emptied exactly in that case (the URL stays for a retry after a
    failure), the uploading flag ends off and the progress is not
    touched. *)
Theorem url_upload_keeps_the_url_on_failure (Metadata SearchResult ChatMessage : Type)
    (url : JS.code_units)
    (uploadUrl : Awaited (Api.DocumentInfo Metadata))
    (getStatus : Awaited Search.ServerStatus)
    (st : Search.AppState (Upload.Document Metadata) SearchResult ChatMessage) :
  let out := Upload.handleUrlUpload url uploadUrl getStatus st in
  (Forall (fun c => JS.is_white_space c = true) url ->
   out = (st, url, [Upload.Show (toast_error "Please enter a valid URL")]))
  /\ (JS.trim url <> [] ->
      Search.documents (fst (fst out))
      = Search.documents st
        ++ match uploadUrl with
           | Resolved result => [Upload.documentOf result]
           | Rejected => []
           end
      /\ snd (fst out) = match uploadUrl with Resolved _ => [] | Rejected => url end
      /\ Search.isUploading (fst (fst out)) = false
      /\ Search.uploadProgress (fst (fst out)) = Search.uploadProgress st
      /\ hd_error (tl (snd out)) = Some (Upload.CallUploadUrl url)).
Proof.
  split.
  - intros Hw. simpl. unfold Upload.handleUrlUpload. now rewrite (trim_white url Hw).
  - intros Hq. simpl. unfold Upload.handleUrlUpload.
    destruct (JS.trim url) as [|c rest]; [contradiction|]. simpl.
    destruct uploadUrl as [result|]; [destruct getStatus as [status|]|]; simpl;
      rewrite ?app_nil_r; repeat split; reflexivity.
Qed.

Lemma url_upload_keeps_the_url_on_failure_witness :
  Upload.handleUrlUpload [32; 32]%N Rejected Rejected
    (Search.initialState (Upload.Document unit) unit unit)
  = (Search.initialState (Upload.Document unit) unit unit, [32; 32]%N,
     [Upload.Show (toast_error "Please enter a valid URL")])
  /\ snd (fst (Upload.handleUrlUpload [104; 116; 116; 112]%N Rejected Rejected
                 (Search.initialState (Upload.Document unit) unit unit)))
     = [104; 116; 116; 112]%N.
Proof.
  split.
  - apply (proj1 (url_upload_keeps_the_url_on_failure unit unit unit
                    [32; 32]%N Rejected Rejected
                    (Search.initialState (Upload.Document unit) unit unit))).
    repeat constructor.
  - assert (Hq : JS.trim [104; 116; 116; 112]%N <> []) by (vm_compute; discriminate).
    destruct (proj2 (url_upload_keeps_the_url_on_failure unit unit unit
                       [104; 116; 116; 112]%N Rejected Rejected
                       (Search.initialState (Upload.Document unit) unit unit)) Hq)
      as (_ & H & _).
    exact H.
Defined.
